(** * Order notification system (Examen02, ejercicio1_tienda_online.py)

    A shallow embedding of the validator chain, the notifier registry, the
    notifiers (primitive, decorated and composite), the history logger and
    [OrderNotificationSystem.process_order], followed by the properties
    stated about them. *)

From Stdlib Require Import PrimFloat Ascii String.
From stdpp Require Import gmap strings list pretty.

#[local] Set Warnings "-register-all".

Local Open Scope string_scope.

(** ** Python values *)

(** The values that orders, customers and notification results are made of.
    A dict is kept as an association list in insertion order; its keys are
    the string keys the program uses. *)
Inductive pyval : Type :=
| PNone
| PBool (b : bool)
| PInt (z : Z)
| PFloat (f : float)
| PStr (s : string)
| PList (l : list pyval)
| PDict (d : list (string * pyval)).

Abbreviation pydict := (list (string * pyval)).

(** Exceptions the program raises or lets through.  [OtherError cls msg]
    stands for an exception of a class [cls] that is a subclass of
    [Exception] but not of [ValueError], [KeyError], [TypeError] or
    [AttributeError] (a transport error of a user-defined notifier). *)
Inductive exn : Type :=
| ValueError (msg : string)
| KeyError (key : string)
| TypeError (msg : string)
| AttributeError (msg : string)
| OtherError (cls msg : string).

(** The outcome of a call: it returns a value or raises. *)
Inductive result (A : Type) : Type :=
| Ok (a : A)
| Raise (e : exn).
Arguments Ok {A} a.
Arguments Raise {A} e.

Definition nl : string := String (Ascii.ascii_of_nat 10) EmptyString.

(** The value bound to [k] in [d], if any (the keys of a Python dict are
    unique; on a list with a repeated key the first binding counts). *)
Fixpoint dict_get (d : pydict) (k : string) : option pyval :=
  match d with
  | [] => None
  | (k', v) :: d' => if String.eqb k' k then Some v else dict_get d' k
  end.

(** [d.get(k)] with Python's default [None], and [d.get(k, dflt)]. *)
Definition dict_get_default (d : pydict) (k : string) (dflt : pyval) : pyval :=
  match dict_get d k with
  | Some v => v
  | None => dflt
  end.

(** Python truthiness, as [not x] and [if x] test it. *)
Definition truthy (v : pyval) : bool :=
  match v with
  | PNone => false
  | PBool b => b
  | PInt z => negb (z =? 0)%Z
  | PFloat f => negb (PrimFloat.eqb f PrimFloat.zero)
  | PStr s => negb (String.eqb s EmptyString)
  | PList l => match l with [] => false | _ => true end
  | PDict d => match d with [] => false | _ => true end
  end.

Definition type_name (v : pyval) : string :=
  match v with
  | PNone => "NoneType"
  | PBool _ => "bool"
  | PInt _ => "int"
  | PFloat _ => "float"
  | PStr _ => "str"
  | PList _ => "list"
  | PDict _ => "dict"
  end.

(** [str(e)] for an exception: the message, and for a [KeyError] the repr
    of the key (the keys of this program are plain identifiers). *)
Definition exn_str (e : exn) : string :=
  match e with
  | ValueError m => m
  | KeyError k => "'" ++ k ++ "'"
  | TypeError m => m
  | AttributeError m => m
  | OtherError _ m => m
  end.

(** [v[k]] for a string key [k]: a dict looks the key up and raises
    [KeyError] when it is absent; no other value of the model can be
    indexed by a string (the messages are CPython's). *)
Definition subscript (v : pyval) (k : string) : result pyval :=
  match v with
  | PDict d =>
      match dict_get d k with
      | Some x => Ok x
      | None => Raise (KeyError k)
      end
  | PStr _ => Raise (TypeError "string indices must be integers, not 'str'")
  | PList _ => Raise (TypeError "list indices must be integers or slices, not str")
  | _ => Raise (TypeError ("'" ++ type_name v ++ "' object is not subscriptable"))
  end.

(** [v.get(k)]: only a dict has the method. *)
Definition method_get (v : pyval) (k : string) : result pyval :=
  match v with
  | PDict d => Ok (dict_get_default d k PNone)
  | _ => Raise (AttributeError ("'" ++ type_name v ++ "' object has no attribute 'get'"))
  end.

(** [v <= 0]: defined on numbers (a bool is the int 0 or 1; a NaN compares
    false), a [TypeError] on anything else. *)
Definition le_zero (v : pyval) : result bool :=
  match v with
  | PBool b => Ok (negb b)
  | PInt z => Ok (z <=? 0)%Z
  | PFloat f => Ok (PrimFloat.leb f PrimFloat.zero)
  | _ => Raise (TypeError ("'<=' not supported between instances of '"
                           ++ type_name v ++ "' and 'int'"))
  end.

(** ['=' * n] and the like. *)
Fixpoint str_repeat (s : string) (n : nat) : string :=
  match n with
  | O => EmptyString
  | S n' => s ++ str_repeat s n'
  end.

(** ** The world the program runs in *)

(** What the program takes from the Python runtime: [py_str v] is
    [str(v)], as an f-string renders a value, and [iso_now k] is
    [datetime.now().isoformat()] at the [k]-th reading of the clock. *)
Class Runtime : Type := {
  py_str : pyval -> string;
  iso_now : nat -> string
}.

Section Model.

(** [St] is the state owned by user-defined notifiers and listeners:
    objects of classes that implement [INotifier] or
    [INotificationObserver] and are not among those of the program. *)
Context {St : Type} {RT : Runtime}.

(** What the code can touch: the console, the clock and the state of the
    user-defined objects. *)
Record env : Type := Env {
  stdout : list string;     (* one entry per [print] call, oldest first *)
  clock : nat;              (* readings of the clock so far *)
  ext : St
}.

(** The notifiers: the three primitive ones, the decorators, the composite,
    and a user-defined implementation of [INotifier] given by its type
    name and the behaviour of its [send], which returns a dict as the
    interface declares. *)
Inductive notifier : Type :=
| EmailNotifier
| SMSNotifier
| PushNotifier
| NotifierDecorator (inner : notifier)
| RetryDecorator (inner : notifier) (max_retries : Z)
| LoggingDecorator (inner : notifier)
| CompositeNotifier (name : string) (members : list notifier)
| CustomNotifier (ntype : string)
    (behaviour : pyval -> pyval -> pyval -> env -> result pydict * env).

(** Calls recorded while the program runs.  The trace is a ghost: no
    statement of the program reads it. *)
Inductive event : Type :=
| EvSend (n : notifier)               (* [n.send(...)] was entered *)
| EvUpdate (o : nat) (data : pyval).  (* [update(data)] of listener [o] was entered *)

Record world : Type := World {
  w_env : env;
  trace : list event
}.

(** Computations that read and change the world and may raise. *)
Definition M (A : Type) : Type := world -> result A * world.

Definition ret {A} (a : A) : M A := fun w => (Ok a, w).

Definition bind {A B} (c : M A) (k : A -> M B) : M B :=
  fun w =>
    match c w with
    | (Ok a, w') => k a w'
    | (Raise e, w') => (Raise e, w')
    end.

Notation "x <~ c ;; k" := (bind c (fun x => k))
  (at level 62, c at next level, right associativity).
Notation "c ;;; k" := (bind c (fun _ => k))
  (at level 62, right associativity).

Definition lift {A} (r : result A) : M A := fun w => (r, w).

Definition print_env (s : string) (e : env) : env :=
  Env (stdout e ++ [s]) (clock e) (ext e).

Definition print (s : string) : M unit :=
  fun w => (Ok tt, World (print_env s (w_env w)) (trace w)).

(** [datetime.now().isoformat()] *)
Definition now : M string :=
  fun w =>
    let e := w_env w in
    (Ok (iso_now (clock e)), World (Env (stdout e) (S (clock e)) (ext e)) (trace w)).

Definition emit (ev : event) : M unit :=
  fun w => (Ok tt, World (w_env w) (trace w ++ [ev])).

(** A user-defined behaviour runs on the environment. *)
Definition run_env {A} (f : env -> result A * env) : M A :=
  fun w => let '(r, e) := f (w_env w) in (r, World e (trace w)).

(** ** Notifiers *)

Definition email_send (customer order_id total : pyval) : M pyval :=
  name <~ lift (subscript customer "name") ;;
  let message := "Estimado " ++ py_str name ++ ", su pedido #" ++ py_str order_id
                 ++ " por $" ++ py_str total ++ " ha sido confirmado." in
  email <~ lift (subscript customer "email") ;;
  print ("📧 EMAIL enviado a " ++ py_str email ++ ": " ++ message ++ nl) ;;;
  to <~ lift (subscript customer "email") ;;
  ts <~ now ;;
  ret (PDict [("type", PStr "email"); ("to", to);
              ("message", PStr message); ("timestamp", PStr ts)]).

Definition sms_send (customer order_id total : pyval) : M pyval :=
  let message := "Pedido #" ++ py_str order_id ++ " confirmado. Total: $"
                 ++ py_str total ++ ". Gracias!" in
  phone <~ lift (subscript customer "phone") ;;
  print ("📱 SMS enviado a " ++ py_str phone ++ ": " ++ message ++ nl) ;;;
  to <~ lift (subscript customer "phone") ;;
  ts <~ now ;;
  ret (PDict [("type", PStr "sms"); ("to", to);
              ("message", PStr message); ("timestamp", PStr ts)]).

Definition push_send (customer order_id total : pyval) : M pyval :=
  let message := "¡Pedido confirmado! #" ++ py_str order_id ++ " - $" ++ py_str total in
  device <~ lift (subscript customer "device_id") ;;
  print ("🔔 PUSH enviada a " ++ py_str device ++ ": " ++ message ++ nl) ;;;
  to <~ lift (subscript customer "device_id") ;;
  ts <~ now ;;
  ret (PDict [("type", PStr "push"); ("to", to);
              ("message", PStr message); ("timestamp", PStr ts)]).

Fixpoint get_notification_type (n : notifier) : string :=
  match n with
  | EmailNotifier => "email"
  | SMSNotifier => "sms"
  | PushNotifier => "push"
  | NotifierDecorator inner => get_notification_type inner
  | RetryDecorator inner _ => get_notification_type inner
  | LoggingDecorator inner => get_notification_type inner
  | CompositeNotifier name _ => "composite_" ++ name
  | CustomNotifier ntype _ => ntype
  end.

(** The body of [RetryDecorator.send]: [todo] iterations of
    [for attempt in range(max_retries)] are left, the next one is
    [attempt]; [inner_send] is the wrapped notifier's send. *)
Fixpoint retry_loop (inner_send : M pyval) (max_retries : Z)
    (todo : nat) (attempt : Z) : M pyval :=
  match todo with
  | O => ret (PDict [])
  | S todo' =>
      fun w =>
        let '(_, w1) := print ("   🔄 Intento " ++ py_str (PInt (attempt + 1)) ++ "/"
                               ++ py_str (PInt max_retries)) w in
        match inner_send w1 with
        | (Ok r, w2) => (Ok r, w2)
        | (Raise e, w2) =>
            if (attempt =? max_retries - 1)%Z then (Raise e, w2)
            else
              (print ("   ⚠️ Error intento " ++ py_str (PInt (attempt + 1)) ++ ": "
                      ++ exn_str e) ;;;
               retry_loop inner_send max_retries todo' (attempt + 1)%Z) w2
        end
  end.

(** The body of [CompositeNotifier.send] after the header line: the
    members left to call and the results appended so far. *)
Fixpoint composite_loop (send_one : notifier -> M pyval) (members : list notifier)
    (results : list pyval) : M (list pyval) :=
  match members with
  | [] => ret results
  | m :: members' =>
      r <~ send_one m ;;
      composite_loop send_one members' (results ++ [r])%list
  end.

Fixpoint send (n : notifier) (customer order_id total : pyval) {struct n} : M pyval :=
  emit (EvSend n) ;;;
  match n with
  | EmailNotifier => email_send customer order_id total
  | SMSNotifier => sms_send customer order_id total
  | PushNotifier => push_send customer order_id total
  | NotifierDecorator inner => send inner customer order_id total
  | RetryDecorator inner max_retries =>
      retry_loop (send inner customer order_id total) max_retries
        (Z.to_nat max_retries) 0%Z
  | LoggingDecorator inner =>
      print ("   📝 [LOG] Iniciando " ++ get_notification_type inner) ;;;
      r <~ send inner customer order_id total ;;
      print "   📝 [LOG] Completado" ;;;
      ret r
  | CompositeNotifier name members =>
      print ("📦 Grupo '" ++ name ++ "':") ;;;
      results <~ composite_loop (fun m => send m customer order_id total) members [] ;;
      ts <~ now ;;
      ret (PDict [("type", PStr "composite"); ("group", PStr name);
                  ("results", PList results); ("timestamp", PStr ts)])
  | CustomNotifier _ behaviour =>
      d <~ run_env (behaviour customer order_id total) ;;
      ret (PDict d)
  end.

(** [CompositeNotifier.add]: the member goes to the end of the list; a
    notifier that is no composite has no such method and is left as it is. *)
Definition composite_add (c m : notifier) : notifier :=
  match c with
  | CompositeNotifier name members => CompositeNotifier name (members ++ [m])%list
  | _ => c
  end.

(** ** The registry ([NotificationFactory]) *)

Definition default_notifiers : gmap string notifier :=
  <["push" := PushNotifier]> (<["sms" := SMSNotifier]> (<["email" := EmailNotifier]> ∅)).

(** An instance of a notifier class is truthy: none of the classes defines
    [__bool__] or [__len__]. *)
Definition notifier_truthy (n : notifier) : bool := true.

Definition get_notifier (notifiers : gmap string notifier) (notification_type : string)
  : result notifier :=
  match notifiers !! notification_type with
  | Some n =>
      if notifier_truthy n then Ok n
      else Raise (ValueError ("Tipo no soportado: " ++ notification_type))
  | None => Raise (ValueError ("Tipo no soportado: " ++ notification_type))
  end.

Definition register_notifier (notification_type : string) (n : notifier)
    (notifiers : gmap string notifier) : gmap string notifier :=
  <[notification_type := n]> notifiers.

(** ** The validator chain *)

Inductive validator : Type :=
| OrderIdValidator (next : option validator)
| CustomerValidator (next : option validator)
| TotalValidator (next : option validator).

Definition msg_order_id_missing : string := "   ❌ Order ID faltante".
Definition msg_order_id_valid : string := "   ✅ Order ID válido".
Definition msg_customer_incomplete : string := "   ❌ Cliente incompleto".
Definition msg_customer_valid : string := "   ✅ Cliente válido".
Definition msg_total_invalid : string := "   ❌ Total inválido".
Definition msg_total_valid : string := "   ✅ Total válido".

(** The three checks, each as the condition of its [if] decides it: [Ok
    true] when the check passes. *)
Definition check_order_id (order_data : pydict) : result bool :=
  Ok (truthy (dict_get_default order_data "order_id" PNone)).

Definition check_customer (order_data : pydict) : result bool :=
  let customer := dict_get_default order_data "customer" (PDict []) in
  match method_get customer "name" with
  | Raise e => Raise e
  | Ok name =>
      if negb (truthy name) then Ok false
      else
        match method_get customer "email" with
        | Raise e => Raise e
        | Ok email => Ok (truthy email)
        end
  end.

Definition check_total (order_data : pydict) : result bool :=
  match le_zero (dict_get_default order_data "total" (PInt 0)) with
  | Raise e => Raise e
  | Ok b => Ok (negb b)
  end.

Fixpoint validate (v : validator) (order_data : pydict) : M bool :=
  let call_next (next : option validator) : M bool :=
    match next with
    | Some v' => validate v' order_data
    | None => ret true
    end in
  match v with
  | OrderIdValidator next =>
      ok <~ lift (check_order_id order_data) ;;
      if negb ok then print msg_order_id_missing ;;; ret false
      else print msg_order_id_valid ;;; call_next next
  | CustomerValidator next =>
      ok <~ lift (check_customer order_data) ;;
      if negb ok then print msg_customer_incomplete ;;; ret false
      else print msg_customer_valid ;;; call_next next
  | TotalValidator next =>
      ok <~ lift (check_total order_data) ;;
      if negb ok then print msg_total_invalid ;;; ret false
      else print msg_total_valid ;;; call_next next
  end.

(** [order_id.set_next(customer).set_next(total)] *)
Definition _build_validator_chain : validator :=
  OrderIdValidator (Some (CustomerValidator (Some (TotalValidator None)))).

(** ** Listeners, the history logger and the system *)

(** A listener ([INotificationObserver]): an object with an identity and
    an [update] method acting on the environment. *)
Record observer : Type := Observer {
  obs_id : nat;
  obs_update : pyval -> env -> result unit * env
}.

Record system : Type := System {
  factory : gmap string notifier;          (* [factory._notifiers] *)
  notifications_sent : list pyval;         (* [logger.notifications_sent] *)
  observers : list observer                (* [_observers] *)
}.

Definition new_system : system := System default_notifiers [] [].

(** [NotificationLogger.log] and [get_history] *)
Definition log (data : pyval) (sys : system) : system :=
  System (factory sys) (notifications_sent sys ++ [data])%list (observers sys).

Definition get_notification_history (sys : system) : list pyval :=
  notifications_sent sys.

Definition attach_observer (o : observer) (sys : system) : system :=
  System (factory sys) (notifications_sent sys) (observers sys ++ [o])%list.

Definition system_register (notification_type : string) (n : notifier) (sys : system)
  : system :=
  System (register_notifier notification_type n (factory sys))
         (notifications_sent sys) (observers sys).

Fixpoint _notify_observers (obs : list observer) (notification_data : pyval) : M unit :=
  match obs with
  | [] => ret tt
  | o :: obs' =>
      emit (EvUpdate (obs_id o) notification_data) ;;;
      run_env (obs_update o notification_data) ;;;
      _notify_observers obs' notification_data
  end.

(** ** [process_order] *)

(** The body of the [try] for one requested type. *)
Definition channel_body (sys : system) (customer order_id total : pyval)
    (notif_type : string) (w : world) : result unit * system * world :=
  match get_notifier (factory sys) notif_type with
  | Raise e => (Raise e, sys, w)
  | Ok n =>
      match send n customer order_id total w with
      | (Raise e, w1) => (Raise e, sys, w1)
      | (Ok notification_data, w1) =>
          let sys1 := log notification_data sys in
          match _notify_observers (observers sys1) notification_data w1 with
          | (Raise e, w2) => (Raise e, sys1, w2)
          | (Ok _, w2) => (Ok tt, sys1, w2)
          end
      end
  end.

(** [for notif_type in notification_types: try: ... except ValueError as e:
    print(...)] *)
Fixpoint dispatch_loop (sys : system) (customer order_id total : pyval)
    (notification_types : list string) (w : world) : result unit * system * world :=
  match notification_types with
  | [] => (Ok tt, sys, w)
  | notif_type :: rest =>
      match channel_body sys customer order_id total notif_type w with
      | (Ok _, sys1, w1) => dispatch_loop sys1 customer order_id total rest w1
      | (Raise (ValueError m), sys1, w1) =>
          let '(_, w2) := print ("⚠️ Error: " ++ exn_str (ValueError m) ++ nl) w1 in
          dispatch_loop sys1 customer order_id total rest w2
      | (Raise e, sys1, w1) => (Raise e, sys1, w1)
      end
  end.

Definition process_order (sys : system) (order_data : pydict)
    (notification_types : list string) (w : world) : result unit * system * world :=
  match subscript (PDict order_data) "order_id" with
  | Raise e => (Raise e, sys, w)
  | Ok order_id =>
  match subscript (PDict order_data) "customer" with
  | Raise e => (Raise e, sys, w)
  | Ok customer =>
  match subscript (PDict order_data) "total" with
  | Raise e => (Raise e, sys, w)
  | Ok total =>
      let '(_, w1) := print (nl ++ str_repeat "=" 50) w in
      let '(_, w2) := print ("Procesando pedido #" ++ py_str order_id) w1 in
      match subscript customer "name" with
      | Raise e => (Raise e, sys, w2)
      | Ok name =>
          let '(_, w3) := print ("Cliente: " ++ py_str name) w2 in
          let '(_, w4) := print ("Total: $" ++ py_str total) w3 in
          let '(_, w5) := print (str_repeat "=" 50 ++ nl) w4 in
          let '(_, w6) := print "🔍 Validando pedido..." w5 in
          match validate _build_validator_chain order_data w6 with
          | (Raise e, w7) => (Raise e, sys, w7)
          | (Ok false, w7) =>
              let '(_, w8) := print ("❌ Pedido inválido" ++ nl) w7 in
              (Ok tt, sys, w8)
          | (Ok true, w7) =>
              dispatch_loop sys customer order_id total notification_types w7
          end
      end
  end end end.

(** ** Vocabulary of the statements *)

(** The world after the lines [ls] were printed. *)
Definition prints (ls : list string) (w : world) : world :=
  World (Env (stdout (w_env w) ++ ls)%list (clock (w_env w)) (ext (w_env w))) (trace w).

(** An order passes validation when the three checks pass. *)
Definition valid_order (order_data : pydict) : Prop :=
  check_order_id order_data = Ok true /\
  check_customer order_data = Ok true /\
  check_total order_data = Ok true.

(** What [process_order] prints before it validates. *)
Definition header_lines (order_id name total : pyval) : list string :=
  [nl ++ str_repeat "=" 50;
   "Procesando pedido #" ++ py_str order_id;
   "Cliente: " ++ py_str name;
   "Total: $" ++ py_str total;
   str_repeat "=" 50 ++ nl;
   "🔍 Validando pedido..."].

Definition unsupported_line (notif_type : string) : string :=
  "⚠️ Error: " ++ ("Tipo no soportado: " ++ notif_type) ++ nl.

(** A listener whose [update] returns, whatever dict it is given. *)
Definition listener_returns (o : observer) : Prop :=
  forall d e, exists e', obs_update o (PDict d) e = (Ok tt, e').

(** The [update] calls of a trace, in the order they were made. *)
Definition updates_of (tr : list event) : list (nat * pyval) :=
  flat_map (fun ev => match ev with EvUpdate o d => [(o, d)] | EvSend _ => [] end) tr.


(** The members of a composite called one after the other: each send
    starts in the world its predecessor left and returns its result. *)
Inductive members_sent (customer order_id total : pyval)
  : list notifier -> world -> list pyval -> world -> Prop :=
| members_sent_nil w :
    members_sent customer order_id total [] w [] w
| members_sent_cons m ms w r w1 rs w2 :
    send m customer order_id total w = (Ok r, w1) ->
    members_sent customer order_id total ms w1 rs w2 ->
    members_sent customer order_id total (m :: ms) w (r :: rs) w2.

(** The inner notifier of a retry, seen from the state of the user-defined
    objects: from state [s] its send raises [x] (or returns) and leaves
    state [s']. *)
Definition raises_at (inner : notifier) (customer order_id total : pyval)
    (s : St) (x : exn) (s' : St) : Prop :=
  forall w, ext (w_env w) = s ->
    exists w', send inner customer order_id total w = (Raise x, w') /\ ext (w_env w') = s'.

Definition returns_at (inner : notifier) (customer order_id total : pyval)
    (s s' : St) : Prop :=
  forall w, ext (w_env w) = s ->
    exists r w', send inner customer order_id total w = (Ok r, w') /\ ext (w_env w') = s'.

(** The world once [n.send] is entered, and once the clock is read. *)
Definition entered (n : notifier) (w : world) : world :=
  World (w_env w) (trace w ++ [EvSend n])%list.

Definition tick (w : world) : world :=
  World (Env (stdout (w_env w)) (S (clock (w_env w))) (ext (w_env w))) (trace w).

(** The dict a composite returns for the results [rs] of its members. *)
Definition composite_result (name : string) (rs : list pyval) (ts : string) : pyval :=
  PDict [("type", PStr "composite"); ("group", PStr name);
         ("results", PList rs); ("timestamp", PStr ts)].

Definition group_line (name : string) : string := "📦 Grupo '" ++ name ++ "':".

(** The requested types that have a registered notifier, in request order. *)
Definition registered_kinds (notifiers : gmap string notifier) (kinds : list string)
  : list string :=
  filter (fun k => is_Some (notifiers !! k)) kinds.

(** [r] is what the notifier registered for [k] returned from its send. *)
Definition result_of (notifiers : gmap string notifier) (customer order_id total : pyval)
    (k : string) (r : pyval) : Prop :=
  exists n w0 w1,
    notifiers !! k = Some n /\ send n customer order_id total w0 = (Ok r, w1).

Definition invalid_line : string := "❌ Pedido inválido" ++ nl.

(** A computation that calls no listener: whatever it adds to the trace
    holds no [update]. *)
Definition no_update {A} (c : M A) : Prop :=
  forall w r w', c w = (r, w') ->
    exists tr, trace w' = (trace w ++ tr)%list /\ updates_of tr = [].

(** A computation whose result, when it returns, is a dict. *)
Definition returns_dict (c : M pyval) : Prop :=
  forall w r w', c w = (Ok r, w') -> exists d, r = PDict d.

(** ** The order builder *)

(** An [OrderBuilder]: its seven attributes.  The setters return the
    builder itself; here they return the builder as it is after the call. *)
Record order_builder : Type := OrderBuilder {
  _order_id : pyval;
  _customer_name : pyval;
  _customer_email : pyval;
  _customer_phone : pyval;
  _customer_device_id : pyval;
  _total : pyval;
  _items : list pyval
}.

(** [OrderBuilder()] *)
Definition new_builder : order_builder :=
  OrderBuilder PNone PNone PNone PNone PNone (PFloat 0%float) [].

Definition with_order_id (order_id : pyval) (b : order_builder) : order_builder :=
  OrderBuilder order_id (_customer_name b) (_customer_email b) (_customer_phone b)
    (_customer_device_id b) (_total b) (_items b).

(** [with_customer(name, email, phone, device_id)]; a caller that leaves
    out [phone] or [device_id] passes [None]. *)
Definition with_customer (name email phone device_id : pyval) (b : order_builder)
  : order_builder :=
  OrderBuilder (_order_id b) name email phone device_id (_total b) (_items b).

Definition with_total (total : pyval) (b : order_builder) : order_builder :=
  OrderBuilder (_order_id b) (_customer_name b) (_customer_email b) (_customer_phone b)
    (_customer_device_id b) total (_items b).

Definition add_item (item_name price quantity : pyval) (b : order_builder)
  : order_builder :=
  OrderBuilder (_order_id b) (_customer_name b) (_customer_email b) (_customer_phone b)
    (_customer_device_id b) (_total b)
    (_items b ++ [PDict [("name", item_name); ("price", price); ("quantity", quantity)]])%list.

Definition build (b : order_builder) : result pydict :=
  if negb (truthy (_order_id b)) || negb (truthy (_customer_name b))
  then Raise (ValueError "Order ID y Customer Name requeridos")
  else Ok [("order_id", _order_id b);
           ("customer", PDict [("name", _customer_name b);
                               ("email", _customer_email b);
                               ("phone", _customer_phone b);
                               ("device_id", _customer_device_id b)]);
           ("total", _total b);
           ("items", PList (_items b))].

(** A call on a builder, and a sequence of calls made one after the other
    (the fluent style of the demonstration). *)
Inductive builder_call : Type :=
| WithOrderId (order_id : pyval)
| WithCustomer (name email phone device_id : pyval)
| WithTotal (total : pyval)
| AddItem (item_name price quantity : pyval).

Definition apply_call (b : order_builder) (c : builder_call) : order_builder :=
  match c with
  | WithOrderId order_id => with_order_id order_id b
  | WithCustomer name email phone device_id => with_customer name email phone device_id b
  | WithTotal total => with_total total b
  | AddItem item_name price quantity => add_item item_name price quantity b
  end.

Definition apply_calls (cs : list builder_call) (b : order_builder) : order_builder :=
  fold_left apply_call cs b.

Definition sets_total (c : builder_call) : bool :=
  match c with
  | WithTotal _ => true
  | _ => false
  end.

(** The items the calls [cs] add, in call order. *)
Definition items_added (cs : list builder_call) : list pyval :=
  flat_map (fun c => match c with
                     | AddItem item_name price quantity =>
                         [PDict [("name", item_name); ("price", price);
                                 ("quantity", quantity)]]
                     | _ => []
                     end) cs.

(** ** The configuration singleton *)

(** [d[k] = v] on the attributes of an object: the binding of [k] is
    replaced where it stands, or added at the end. *)
Fixpoint dict_set (d : pydict) (k : string) (v : pyval) : pydict :=
  match d with
  | [] => [(k, v)]
  | (k', v') :: d' =>
      if String.eqb k' k then (k', v) :: d' else (k', v') :: dict_set d' k v
  end.

(** The class [NotificationConfig] and the objects made of it: the two
    class attributes, the attributes of every object created so far, and
    the identity the next object gets. *)
Record config_class : Type := ConfigClass {
  cfg_instance : option nat;
  cfg_initialized : bool;
  cfg_objects : gmap nat pydict;
  cfg_next : nat
}.

Definition config_class_initial : config_class := ConfigClass None false ∅ 0.

(** [self.name = v] for the object [self] *)
Definition config_setattr (self : nat) (name : string) (v : pyval) (c : config_class)
  : config_class :=
  ConfigClass (cfg_instance c) (cfg_initialized c)
    (<[self := dict_set (default [] (cfg_objects c !! self)) name v]> (cfg_objects c))
    (cfg_next c).

(** [NotificationConfig.__new__] *)
Definition config_new (c : config_class) : nat * config_class :=
  match cfg_instance c with
  | Some self => (self, c)
  | None =>
      let self := cfg_next c in
      (self, ConfigClass (Some self) (cfg_initialized c)
               (<[self := []]> (cfg_objects c)) (S self))
  end.

(** [NotificationConfig.__init__] *)
Definition config_init (self : nat) (c : config_class) : config_class :=
  if negb (cfg_initialized c) then
    let c1 := config_setattr self "max_retries" (PInt 3) c in
    let c2 := config_setattr self "timeout" (PInt 30) c1 in
    let c3 := config_setattr self "enable_logging" (PBool true) c2 in
    let c4 := config_setattr self "batch_size" (PInt 10) c3 in
    ConfigClass (cfg_instance c4) true (cfg_objects c4) (cfg_next c4)
  else c.

(** [NotificationConfig()]: [__new__], then [__init__] on what it returned. *)
Definition NotificationConfig (c : config_class) : nat * config_class :=
  let '(self, c1) := config_new c in (self, config_init self c1).

(** [self.name] *)
Definition config_getattr (self : nat) (name : string) (c : config_class) : result pyval :=
  match dict_get (default [] (cfg_objects c !! self)) name with
  | Some v => Ok v
  | None => Raise (AttributeError ("'NotificationConfig' object has no attribute '"
                                   ++ name ++ "'"))
  end.

Definition get_config (self : nat) (c : config_class) : result pydict :=
  match config_getattr self "max_retries" c with
  | Raise e => Raise e
  | Ok max_retries =>
  match config_getattr self "timeout" c with
  | Raise e => Raise e
  | Ok timeout =>
  match config_getattr self "enable_logging" c with
  | Raise e => Raise e
  | Ok enable_logging =>
  match config_getattr self "batch_size" c with
  | Raise e => Raise e
  | Ok batch_size =>
      Ok [("max_retries", max_retries); ("timeout", timeout);
          ("enable_logging", enable_logging); ("batch_size", batch_size)]
  end end end end.

(** ** Detaching a listener *)

(** [l.remove(x)] for the listener with identity [id]: the list without
    its first occurrence, or nothing when it has none. *)
Fixpoint remove_first (id : nat) (obs : list observer) : option (list observer) :=
  match obs with
  | [] => None
  | o :: obs' =>
      if (obs_id o =? id)%nat then Some obs'
      else option_map (cons o) (remove_first id obs')
  end.

Definition detach_observer (o : observer) (sys : system) : result system :=
  match remove_first (obs_id o) (observers sys) with
  | Some obs' => Ok (System (factory sys) (notifications_sent sys) obs')
  | None => Raise (ValueError "list.remove(x): x not in list")
  end.

(** ** More vocabulary *)

(** A notifier made of the classes of the program only. *)
Fixpoint builtin (n : notifier) : bool :=
  match n with
  | EmailNotifier | SMSNotifier | PushNotifier => true
  | NotifierDecorator inner => builtin inner
  | RetryDecorator inner _ => builtin inner
  | LoggingDecorator inner => builtin inner
  | CompositeNotifier _ members => forallb builtin members
  | CustomNotifier _ _ => false
  end.

(** A primitive notifier under any number of decorators, every retry
    with at least one attempt. *)
Fixpoint decorated_primitive (n : notifier) : bool :=
  match n with
  | EmailNotifier | SMSNotifier | PushNotifier => true
  | NotifierDecorator inner => decorated_primitive inner
  | RetryDecorator inner max_retries => (0 <? max_retries)%Z && decorated_primitive inner
  | LoggingDecorator inner => decorated_primitive inner
  | CompositeNotifier _ _ => false
  | CustomNotifier _ _ => false
  end.

(** The checks of a validator chain, first to last. *)
Inductive check_kind : Type := CheckOrderId | CheckCustomer | CheckTotal.

Fixpoint chain_checks (v : validator) : list check_kind :=
  let rest (next : option validator) : list check_kind :=
    match next with
    | Some v' => chain_checks v'
    | None => []
    end in
  match v with
  | OrderIdValidator next => CheckOrderId :: rest next
  | CustomerValidator next => CheckCustomer :: rest next
  | TotalValidator next => CheckTotal :: rest next
  end.

Definition run_check (k : check_kind) (order_data : pydict) : result bool :=
  match k with
  | CheckOrderId => check_order_id order_data
  | CheckCustomer => check_customer order_data
  | CheckTotal => check_total order_data
  end.

Definition line_passed (k : check_kind) : string :=
  match k with
  | CheckOrderId => msg_order_id_valid
  | CheckCustomer => msg_customer_valid
  | CheckTotal => msg_total_valid
  end.

Definition line_failed (k : check_kind) : string :=
  match k with
  | CheckOrderId => msg_order_id_missing
  | CheckCustomer => msg_customer_incomplete
  | CheckTotal => msg_total_invalid
  end.

(** What a chain of the checks [ks] comes to on an order: its result and
    the lines it prints. *)
Fixpoint checks_outcome (ks : list check_kind) (order_data : pydict)
  : result bool * list string :=
  match ks with
  | [] => (Ok true, [])
  | k :: ks' =>
      match run_check k order_data with
      | Raise e => (Raise e, [])
      | Ok false => (Ok false, [line_failed k])
      | Ok true =>
          let '(r, ls) := checks_outcome ks' order_data in (r, line_passed k :: ls)
      end
  end.

(** Attempts of an inner notifier that raise one after the other: from
    state [s] of the user-defined objects they raise the exceptions [xs]
    and leave state [s']. *)
Inductive raises_through (inner : notifier) (customer order_id total : pyval)
  : St -> list exn -> St -> Prop :=
| raises_through_nil s :
    raises_through inner customer order_id total s [] s
| raises_through_cons s x s1 xs s2 :
    raises_at inner customer order_id total s x s1 ->
    raises_through inner customer order_id total s1 xs s2 ->
    raises_through inner customer order_id total s (x :: xs) s2.


(** A computation that returns from every world. *)
Definition always_returns {A} (c : M A) : Prop :=
  forall w, exists a w', c w = (Ok a, w').

(** The dict [d] binds every key of [ks]. *)
Definition has_keys (d : pydict) (ks : list string) : Prop :=
  Forall (fun k => is_Some (dict_get d k)) ks.

(** A computation that leaves the state of the user-defined objects as it
    is, only adds lines to the console and never sets the clock back. *)
Definition keeps_state {A} (c : M A) : Prop :=
  forall w r w', c w = (r, w') ->
    ext (w_env w') = ext (w_env w) /\
    (exists ls, stdout (w_env w') = (stdout (w_env w) ++ ls)%list) /\
    clock (w_env w) <= clock (w_env w').

(** A computation whose result, when it returns, is a dict with 'type'
    [ty]. *)
Definition returns_type (ty : string) (c : M pyval) : Prop :=
  forall w r w', c w = (Ok r, w') ->
    exists d, r = PDict d /\ dict_get d "type" = Some (PStr ty).

(** A computation whose outcome and whose clock afterwards depend on the
    world through the clock only: not on what was printed, not on the
    user-defined objects, not on the calls made before. *)
Definition clock_determined {A} (c : M A) : Prop :=
  forall w1 w2, clock (w_env w1) = clock (w_env w2) ->
    (c w1).1 = (c w2).1 /\ clock (w_env (c w1).2) = clock (w_env (c w2).2).

(** The listeners a trace shows an [update] call of. *)
Definition updated_ids (tr : list event) : list nat := map fst (updates_of tr).

End Model.

Arguments env St : clear implicits.
Arguments notifier St : clear implicits.
Arguments event St : clear implicits.
Arguments world St : clear implicits.
Arguments M St A : clear implicits.
Arguments observer St : clear implicits.
Arguments system St : clear implicits.

(** * A shop

    The shop of the demonstration at the end of the source file, with a
    notifier that fails twice before it delivers, one that is always down
    and one that rejects every order, and the audit listener. *)

Module Shop.

(** State of the user-defined objects: the calls made so far on the
    unreliable notifier, and the log the audit listener keeps. *)
Record shop_state : Type := ShopState {
  attempts : nat;
  audit_log : list pyval
}.

(** [str(v)] for the values the runs print: strings, [None], bools and
    ints.  No run below prints a value of another type. *)
Definition demo_str (v : pyval) : string :=
  match v with
  | PStr s => s
  | PNone => "None"
  | PBool true => "True"
  | PBool false => "False"
  | PInt z => pretty z
  | _ => "?"
  end.

(** The clock of the runs: its [k]-th reading. *)
Definition demo_now (k : nat) : string := "2025-01-01T00:00:" ++ pretty k.

#[export] Instance shop_runtime : Runtime :=
  {| py_str := demo_str; iso_now := demo_now |}.

Definition w0 : world shop_state := World (Env [] 0 (ShopState 0 [])) [].

(** A notifier that raises [ConnectionError] on its first two calls and
    delivers from the third on. *)
Definition flaky_send (customer order_id total : pyval) (e : env shop_state)
  : result pydict * env shop_state :=
  let k := attempts (ext e) in
  let e' := Env (stdout e) (clock e) (ShopState (S k) (audit_log (ext e))) in
  if (k <? 2)%nat then (Raise (OtherError "ConnectionError" "sin conexion"), e')
  else (Ok [("type", PStr "flaky"); ("to", PStr "gateway")], e').

Definition flaky : notifier shop_state := CustomNotifier "flaky" flaky_send.

(** A notifier whose transport is down: every send raises
    [ConnectionError]. *)
Definition down : notifier shop_state :=
  CustomNotifier "down"
    (fun _ _ _ e => (Raise (OtherError "ConnectionError" "sin conexion"), e)).

(** A notifier that rejects the order with a [ValueError]. *)
Definition strict : notifier shop_state :=
  CustomNotifier "strict" (fun _ _ _ e => (Raise (ValueError "pedido rechazado"), e)).

(** [AuditObserver.update] *)
Definition audit_update (notification_data : pyval) (e : env shop_state)
  : result unit * env shop_state :=
  let ts := iso_now (clock e) in
  let e1 := Env (stdout e) (S (clock e)) (ext e) in
  match method_get notification_data "type" with
  | Raise x => (Raise x, e1)
  | Ok ty =>
      match method_get notification_data "to" with
      | Raise x => (Raise x, e1)
      | Ok to =>
          let entry := PDict [("timestamp", PStr ts); ("notification_type", ty);
                              ("recipient", to); ("status", PStr "sent")] in
          let e2 := Env (stdout e1) (clock e1)
                        (ShopState (attempts (ext e1)) (audit_log (ext e1) ++ [entry])%list) in
          (Ok tt, print_env ("   🔍 [Audit] " ++ py_str ty ++ " → " ++ py_str to) e2)
      end
  end.

Definition audit : observer shop_state := Observer 1 audit_update.

(** The customers and orders of the runs. *)
Definition ana : pyval :=
  PDict [("name", PStr "Ana"); ("email", PStr "ana@email.com");
         ("phone", PStr "+34-600-123-456"); ("device_id", PStr "DEV-123")].

Definition pedro : pyval :=
  PDict [("name", PStr "Pedro"); ("email", PStr "pedro@email.com")].

Definition order_ana : pydict :=
  [("order_id", PStr "ORD-001"); ("customer", ana); ("total", PInt 150)].

Definition order_pedro : pydict :=
  [("order_id", PStr "ORD-003"); ("customer", pedro); ("total", PInt 10)].

Definition order_no_id : pydict :=
  [("order_id", PStr EmptyString); ("customer", pedro); ("total", PInt (-10))].

Definition order_no_customer_name : pydict :=
  [("order_id", PStr "ORD-004"); ("customer", PDict [("email", PStr "x@email.com")]);
   ("total", PInt 10)].

Definition order_free : pydict :=
  [("order_id", PStr "ORD-005"); ("customer", pedro); ("total", PInt 0)].

Definition order_no_total : pydict :=
  [("order_id", PStr "ORD-006"); ("customer", pedro)].

Definition premium : notifier shop_state :=
  fold_left composite_add [EmailNotifier; SMSNotifier; PushNotifier]
    (CompositeNotifier "Premium" []).

Definition shop : system shop_state :=
  attach_observer audit
    (system_register "strict" strict
       (system_register "down" (RetryDecorator down 2)
          (system_register "premium" premium new_system))).

(** The runs the statements below are about. *)
Definition run (sys : system shop_state) (order_data : pydict) (kinds : list string)
  : result unit * system shop_state * world shop_state :=
  process_order sys order_data kinds w0.

Definition id_pedro : pyval := PStr "ORD-003".
Definition id_ana : pyval := PStr "ORD-001".

(** The entry the audit listener writes for [notification_data] when
    the clock reads [ts]. *)
Definition audit_entry (notification_data : pyval) (ts : string) : pyval :=
  PDict [("timestamp", PStr ts);
         ("notification_type",
          match notification_data with PDict d => dict_get_default d "type" PNone | _ => PNone end);
         ("recipient",
          match notification_data with PDict d => dict_get_default d "to" PNone | _ => PNone end);
         ("status", PStr "sent")].

(** The type and the recipient a result or an audit entry names. *)
Definition type_and_recipient (type_key to_key : string) (v : pyval) : pyval * pyval :=
  match v with
  | PDict d => (dict_get_default d type_key PNone, dict_get_default d to_key PNone)
  | _ => (PNone, PNone)
  end.

(** The builder calls of the demonstration, with and without a total. *)
Definition calls_ana : list builder_call :=
  [WithOrderId (PStr "ORD-001");
   WithCustomer (PStr "Ana") (PStr "ana@email.com") (PStr "+34-600-123-456") (PStr "DEV-123");
   WithTotal (PInt 150);
   AddItem (PStr "Laptop") (PInt 899) (PInt 1)].

Definition calls_no_total : list builder_call :=
  [WithOrderId (PStr "ORD-007");
   AddItem (PStr "Laptop") (PInt 899) (PInt 1);
   WithCustomer (PStr "Luis") (PStr "luis@email.com") PNone PNone;
   AddItem (PStr "Funda") (PInt 20) (PInt 2)].

(** A customer built with neither phone nor device. *)
Definition calls_luis : list builder_call :=
  [WithOrderId (PStr "ORD-008");
   WithCustomer (PStr "Luis") (PStr "luis@email.com") PNone PNone;
   WithTotal (PInt 75)].

(** The decorated email notifier of the demonstration. *)
Definition email_enhanced : notifier shop_state :=
  LoggingDecorator (RetryDecorator EmailNotifier 2).

(** The shop after its audit listener was detached. *)
Definition shop_silent : system shop_state :=
  System (factory shop) (notifications_sent shop) [].

(** A chain that checks the total before the identifier, and no customer. *)
Definition chain_total_first : validator :=
  TotalValidator (Some (OrderIdValidator None)).

End Shop.

(** * Properties *)

Section Properties.

Context {St : Type} {RT : Runtime}.

Implicit Types (w : world St) (sys : system St) (n inner : notifier St)
  (ms : list (notifier St)) (obs : list (observer St)) (tr : list (event St))
  (order_data : pydict) (customer order_id total : pyval).

(** ** Basic facts *)

Lemma print_prints s w : print s w = (Ok tt, prints [s] w).
Proof. reflexivity. Qed.

Lemma prints_prints l1 l2 w : prints l2 (prints l1 w) = prints (l1 ++ l2)%list w.
Proof. unfold prints; simpl. by rewrite <- app_assoc. Qed.

Lemma prints_nil w : prints [] w = w.
Proof. destruct w as [[out c s] tr]. unfold prints; simpl. by rewrite app_nil_r. Qed.

Lemma prints_trace ls w : trace (prints ls w) = trace w.
Proof. reflexivity. Qed.

Lemma prints_ext ls w : ext (w_env (prints ls w)) = ext (w_env w).
Proof. reflexivity. Qed.

Lemma subscript_dict d k v : dict_get d k = Some v -> subscript (PDict d) k = Ok v.
Proof. intros H. simpl. by rewrite H. Qed.

Lemma subscript_dict_missing d k : dict_get d k = None -> subscript (PDict d) k = Raise (KeyError k).
Proof. intros H. simpl. by rewrite H. Qed.

(** The chain on an order, check by check. *)
Lemma validate_chain_unfold order_data w :
  validate _build_validator_chain order_data w =
  match check_order_id order_data with
  | Raise e => (Raise e, w)
  | Ok false => (Ok false, prints [msg_order_id_missing] w)
  | Ok true =>
      match check_customer order_data with
      | Raise e => (Raise e, prints [msg_order_id_valid] w)
      | Ok false => (Ok false, prints [msg_order_id_valid; msg_customer_incomplete] w)
      | Ok true =>
          match check_total order_data with
          | Raise e => (Raise e, prints [msg_order_id_valid; msg_customer_valid] w)
          | Ok false =>
              (Ok false, prints [msg_order_id_valid; msg_customer_valid; msg_total_invalid] w)
          | Ok true =>
              (Ok true, prints [msg_order_id_valid; msg_customer_valid; msg_total_valid] w)
          end
      end
  end.
Proof.
  unfold _build_validator_chain. cbn [validate]. unfold bind, lift, ret.
  destruct (check_order_id order_data) as [[|]|e]; cbn [negb]; try reflexivity.
  rewrite print_prints.
  destruct (check_customer order_data) as [[|]|e]; cbn [negb];
    rewrite ?print_prints, ?prints_prints; try reflexivity.
  destruct (check_total order_data) as [[|]|e]; cbn [negb];
    rewrite ?print_prints, ?prints_prints; reflexivity.
Qed.

(** [process_order] once its three fields are read. *)
Lemma process_order_fields sys order_data kinds w order_id customer total :
  dict_get order_data "order_id" = Some order_id ->
  dict_get order_data "customer" = Some customer ->
  dict_get order_data "total" = Some total ->
  process_order sys order_data kinds w =
  match subscript customer "name" with
  | Raise e =>
      (Raise e, sys, prints [nl ++ str_repeat "=" 50; "Procesando pedido #" ++ py_str order_id] w)
  | Ok name =>
      match validate _build_validator_chain order_data
              (prints (header_lines order_id name total) w) with
      | (Raise e, w7) => (Raise e, sys, w7)
      | (Ok false, w7) => (Ok tt, sys, prints [invalid_line] w7)
      | (Ok true, w7) => dispatch_loop sys customer order_id total kinds w7
      end
  end.
Proof.
  intros Hid Hc Ht. unfold process_order.
  rewrite (subscript_dict _ _ _ Hid), (subscript_dict _ _ _ Hc), (subscript_dict _ _ _ Ht).
  rewrite !print_prints, prints_prints.
  destruct (subscript customer "name") as [name|e]; [|reflexivity].
  rewrite !print_prints, !prints_prints.
  unfold header_lines. cbn [app].
  destruct (validate _ _ _) as [[[|]|e] w7]; try reflexivity.
Qed.

(** A valid order carries its three fields, and its customer is a dict
    with a name. *)
Lemma valid_order_fields order_data :
  valid_order order_data ->
  exists order_id (fields : pydict) total name,
    dict_get order_data "order_id" = Some order_id /\
    dict_get order_data "customer" = Some (PDict fields) /\
    dict_get order_data "total" = Some total /\
    dict_get fields "name" = Some name.
Proof.
  intros (Hid & Hc & Ht).
  unfold check_order_id, check_customer, check_total, dict_get_default in *.
  destruct (dict_get order_data "order_id") as [oid|] eqn:E1; [|discriminate].
  destruct (dict_get order_data "total") as [tot|] eqn:E3; [|discriminate].
  destruct (dict_get order_data "customer") as [c|] eqn:E2; [|discriminate].
  destruct c as [| | | | | |d]; try discriminate.
  unfold method_get, dict_get_default in Hc.
  destruct (dict_get d "name") as [name|] eqn:E4; [|discriminate].
  by exists oid, d, tot, name.
Qed.

(** For a valid order [process_order] prints its header and the three
    passed checks, then runs the loop over the requested types. *)
Lemma process_order_valid order_data order_id customer total :
  valid_order order_data ->
  dict_get order_data "order_id" = Some order_id ->
  dict_get order_data "customer" = Some customer ->
  dict_get order_data "total" = Some total ->
  exists ls, forall sys kinds w,
    process_order sys order_data kinds w =
    dispatch_loop sys customer order_id total kinds (prints ls w).
Proof.
  intros Hv Hid Hc Ht.
  destruct (valid_order_fields _ Hv) as (oid & c & tot & name & H1 & H2 & H3 & H4).
  rewrite Hc in H2. injection H2 as ->.
  eexists. intros sys kinds w.
  rewrite (process_order_fields sys _ kinds w _ _ _ Hid Hc Ht).
  rewrite (subscript_dict _ _ _ H4).
  rewrite validate_chain_unfold.
  destruct Hv as (-> & -> & ->). rewrite prints_prints. reflexivity.
Qed.

(** The loop over a list in two parts. *)
Lemma dispatch_loop_app sys customer order_id total pre post w :
  dispatch_loop sys customer order_id total (pre ++ post)%list w =
  match dispatch_loop sys customer order_id total pre w with
  | (Ok _, sys1, w1) => dispatch_loop sys1 customer order_id total post w1
  | (Raise e, sys1, w1) => (Raise e, sys1, w1)
  end.
Proof.
  revert sys w. induction pre as [|k pre IH]; intros sys w; [reflexivity|].
  cbn [app dispatch_loop].
  destruct (channel_body sys customer order_id total k w) as [[[u|e] sys1] w1].
  - apply IH.
  - destruct e; try reflexivity. rewrite print_prints. apply IH.
Qed.

(** One requested type leaves the registry and the listeners as they are
    and at most appends to the history. *)
Lemma channel_body_system sys customer order_id total k w r sys1 w1 :
  channel_body sys customer order_id total k w = (r, sys1, w1) ->
  sys1 = sys \/ exists data, sys1 = log data sys.
Proof.
  unfold channel_body. intros H.
  destruct (get_notifier (factory sys) k) as [n|e]; [|left; congruence].
  destruct (send n customer order_id total w) as [[data|e] w2]; [|left; congruence].
  right. exists data.
  destruct (_notify_observers _ _ _) as [[u|e] w3]; congruence.
Qed.

Lemma dispatch_loop_system sys customer order_id total kinds w r sys1 w1 :
  dispatch_loop sys customer order_id total kinds w = (r, sys1, w1) ->
  factory sys1 = factory sys /\ observers sys1 = observers sys /\
  exists rs, notifications_sent sys1 = (notifications_sent sys ++ rs)%list.
Proof.
  revert sys w. induction kinds as [|k kinds IH]; intros sys w H; cbn [dispatch_loop] in H.
  - injection H as _ <- _. repeat split. exists []. by rewrite app_nil_r.
  - destruct (channel_body sys customer order_id total k w) as [[o sys2] w2] eqn:E.
    assert (Hs : factory sys2 = factory sys /\ observers sys2 = observers sys /\
                 exists rs, notifications_sent sys2 = (notifications_sent sys ++ rs)%list).
    { destruct (channel_body_system _ _ _ _ _ _ _ _ _ E) as [->|[data ->]].
      - repeat split. exists []. by rewrite app_nil_r.
      - repeat split. by exists [data]. }
    destruct Hs as (Hf & Ho & rs2 & Hh).
    assert (Hgo : forall w', dispatch_loop sys2 customer order_id total kinds w' = (r, sys1, w1) ->
                  factory sys1 = factory sys /\ observers sys1 = observers sys /\
                  exists rs, notifications_sent sys1 = (notifications_sent sys ++ rs)%list).
    { intros w' H'. destruct (IH _ _ H') as (Hf' & Ho' & rs' & Hh').
      repeat split; [congruence|congruence|].
      exists (rs2 ++ rs')%list. by rewrite Hh', Hh, app_assoc. }
    destruct o as [u|e]; [by eapply Hgo|].
    destruct e; try (injection H as _ <- _; repeat split; [done|done|by exists rs2]).
    rewrite print_prints in H. by eapply Hgo.
Qed.

(** ** The registry *)

(** C4: [get_notifier] raises the not-found error ("Tipo no soportado",
    a [ValueError]) for a type with no registered notifier, and returns the
    registered notifier for a type that has one: one already in the registry
    or one just registered. *)
Theorem get_notifier_resolves :
  (forall (notifiers : gmap string (notifier St)) kind,
      notifiers !! kind = None ->
      get_notifier notifiers kind = Raise (ValueError ("Tipo no soportado: " ++ kind))) /\
  (forall (notifiers : gmap string (notifier St)) kind n,
      notifiers !! kind = Some n -> get_notifier notifiers kind = Ok n) /\
  (forall (notifiers : gmap string (notifier St)) kind n,
      get_notifier (register_notifier kind n notifiers) kind = Ok n).
Proof.
  repeat split.
  - intros notifiers kind H. unfold get_notifier. by rewrite H.
  - intros notifiers kind n H. unfold get_notifier. by rewrite H.
  - intros notifiers kind n. unfold get_notifier, register_notifier.
    by rewrite lookup_insert_eq.
Qed.

(** ** The validator chain *)

(** C6: the chain runs the identifier check, then the customer check,
    then the total check, and stops at the first one that fails: the lines
    printed are those of the checks run so far, the last one the reason of
    the failing check; a later check is neither run nor reported.  (A
    check that raises on an ill-typed field, a customer that is no dict or
    a total that is no number, ends the chain in the same way, with its
    exception.) *)
Theorem validate_first_failure order_data w :
  (check_order_id order_data = Ok false ->
   validate _build_validator_chain order_data w =
   (Ok false, prints [msg_order_id_missing] w)) /\
  (check_order_id order_data = Ok true ->
   check_customer order_data = Ok false ->
   validate _build_validator_chain order_data w =
   (Ok false, prints [msg_order_id_valid; msg_customer_incomplete] w)) /\
  (check_order_id order_data = Ok true ->
   check_customer order_data = Ok true ->
   check_total order_data = Ok false ->
   validate _build_validator_chain order_data w =
   (Ok false, prints [msg_order_id_valid; msg_customer_valid; msg_total_invalid] w)) /\
  (valid_order order_data ->
   validate _build_validator_chain order_data w =
   (Ok true, prints [msg_order_id_valid; msg_customer_valid; msg_total_valid] w)) /\
  (forall e,
   check_order_id order_data = Ok true ->
   check_customer order_data = Raise e ->
   validate _build_validator_chain order_data w =
   (Raise e, prints [msg_order_id_valid] w)) /\
  (forall e,
   check_order_id order_data = Ok true ->
   check_customer order_data = Ok true ->
   check_total order_data = Raise e ->
   validate _build_validator_chain order_data w =
   (Raise e, prints [msg_order_id_valid; msg_customer_valid] w)).
Proof.
  rewrite validate_chain_unfold. repeat split.
  - by intros ->.
  - by intros -> ->.
  - by intros -> -> ->.
  - by intros (-> & -> & ->).
  - by intros e -> ->.
  - by intros e -> -> ->.
Qed.

(** C3: an order whose identifier is the empty string fails validation
    with the identifier-missing reason whatever its other fields are, and
    [process_order] on it calls no notifier and no listener and leaves the
    history as it was: it returns the system unchanged and a world that
    differs from the initial one by printed lines only. *)
Theorem empty_identifier_rejected order_data :
  dict_get order_data "order_id" = Some (PStr EmptyString) ->
  (forall w, validate _build_validator_chain order_data w =
             (Ok false, prints [msg_order_id_missing] w)) /\
  (forall sys kinds w, exists r sys' w',
      process_order sys order_data kinds w = (r, sys', w') /\
      get_notification_history sys' = get_notification_history sys /\
      trace w' = trace w /\
      ext (w_env w') = ext (w_env w)).
Proof.
  intros Hid.
  assert (Hc : check_order_id order_data = Ok false).
  { unfold check_order_id, dict_get_default. by rewrite Hid. }
  split.
  - intros w. rewrite validate_chain_unfold. by rewrite Hc.
  - intros sys kinds w. unfold process_order.
    rewrite (subscript_dict _ _ _ Hid).
    destruct (subscript (PDict order_data) "customer") as [customer|e];
      [|by eexists _, _, _].
    destruct (subscript (PDict order_data) "total") as [total|e];
      [|by eexists _, _, _].
    rewrite !print_prints, prints_prints.
    destruct (subscript customer "name") as [name|e]; [|by eexists _, _, _].
    rewrite !print_prints, !prints_prints.
    rewrite validate_chain_unfold, Hc, print_prints, !prints_prints.
    by eexists _, _, _.
Qed.

(** ** Reading the order *)

(** C10: on a dict that lacks 'order_id', 'customer' or 'total',
    [process_order] raises [KeyError] for a missing key with nothing
    printed, no check run and nothing changed; so whenever it prints
    anything (a validation failure included) the dict carries all three
    keys. *)
Theorem missing_key_raises sys order_data kinds w :
  (dict_get order_data "order_id" = None \/
   dict_get order_data "customer" = None \/
   dict_get order_data "total" = None ->
   exists key,
     In key ["order_id"; "customer"; "total"] /\
     dict_get order_data key = None /\
     process_order sys order_data kinds w = (Raise (KeyError key), sys, w)) /\
  (forall r sys' w',
     process_order sys order_data kinds w = (r, sys', w') ->
     stdout (w_env w') <> stdout (w_env w) ->
     is_Some (dict_get order_data "order_id") /\
     is_Some (dict_get order_data "customer") /\
     is_Some (dict_get order_data "total")).
Proof.
  assert (Hcases :
    (exists key, In key ["order_id"; "customer"; "total"] /\
                 dict_get order_data key = None /\
                 process_order sys order_data kinds w = (Raise (KeyError key), sys, w)) \/
    (is_Some (dict_get order_data "order_id") /\
     is_Some (dict_get order_data "customer") /\
     is_Some (dict_get order_data "total"))).
  { unfold process_order.
    destruct (dict_get order_data "order_id") as [oid|] eqn:E1.
    2:{ left. exists "order_id". rewrite (subscript_dict_missing _ _ E1).
        repeat split; [by left|done]. }
    rewrite (subscript_dict _ _ _ E1).
    destruct (dict_get order_data "customer") as [c|] eqn:E2.
    2:{ left. exists "customer". rewrite (subscript_dict_missing _ _ E2).
        repeat split; [by right; left|done]. }
    rewrite (subscript_dict _ _ _ E2).
    destruct (dict_get order_data "total") as [t|] eqn:E3.
    2:{ left. exists "total". rewrite (subscript_dict_missing _ _ E3).
        repeat split; [by right; right; left|done]. }
    right. eauto. }
  split.
  - intros Hmiss. destruct Hcases as [H|(H1 & H2 & H3)]; [exact H|].
    destruct Hmiss as [E|[E|E]]; rewrite E in *;
      [destruct H1|destruct H2|destruct H3]; discriminate.
  - intros r sys' w' Hrun Hout.
    destruct Hcases as [(key & _ & _ & H)|H]; [|exact H].
    rewrite H in Hrun. injection Hrun as _ _ <-. by destruct Hout.
Qed.

(** ** The loop over the requested types *)

(** C5: when the loop of a valid order comes to a type with no registered
    notifier (the types before it processed, leaving system [sys1] and
    world [w1]), the only effect is the printed error line: no result is
    added, nothing is raised, and the types after it are processed from the
    same system. *)
Theorem unregistered_kind_skipped sys order_data order_id customer total
    pre k post w sys1 w1 :
  valid_order order_data ->
  dict_get order_data "order_id" = Some order_id ->
  dict_get order_data "customer" = Some customer ->
  dict_get order_data "total" = Some total ->
  factory sys !! k = None ->
  process_order sys order_data pre w = (Ok tt, sys1, w1) ->
  process_order sys order_data (pre ++ k :: post)%list w =
    dispatch_loop sys1 customer order_id total post (prints [unsupported_line k] w1) /\
  process_order sys order_data (pre ++ [k])%list w =
    (Ok tt, sys1, prints [unsupported_line k] w1).
Proof.
  intros Hv Hid Hc Ht Hk Hpre.
  destruct (process_order_valid _ _ _ _ Hv Hid Hc Ht) as [ls Hrun].
  rewrite Hrun in Hpre.
  assert (Hstep : forall rest,
    process_order sys order_data (pre ++ k :: rest)%list w =
    dispatch_loop sys1 customer order_id total rest (prints [unsupported_line k] w1)).
  { intros rest. rewrite Hrun, dispatch_loop_app, Hpre.
    cbn [dispatch_loop]. unfold channel_body.
    destruct (dispatch_loop_system _ _ _ _ _ _ _ _ _ Hpre) as (Hf & _ & _).
    unfold get_notifier. rewrite Hf, Hk. by rewrite print_prints. }
  split; [apply Hstep|]. by rewrite Hstep.
Qed.

(** C2, as the code has it: a [ValueError] raised while one type is
    processed (here by the send of its notifier) is caught, reported on the
    console, and the types after it are processed; an exception of any
    other class raised by the send leaves [process_order] at once, and the
    types after it are not processed. *)
Theorem value_error_isolated sys order_data order_id customer total
    pre k post w sys1 w1 n :
  valid_order order_data ->
  dict_get order_data "order_id" = Some order_id ->
  dict_get order_data "customer" = Some customer ->
  dict_get order_data "total" = Some total ->
  factory sys !! k = Some n ->
  process_order sys order_data pre w = (Ok tt, sys1, w1) ->
  (forall m w2,
     send n customer order_id total w1 = (Raise (ValueError m), w2) ->
     process_order sys order_data (pre ++ k :: post)%list w =
     dispatch_loop sys1 customer order_id total post
       (prints ["⚠️ Error: " ++ m ++ nl] w2)) /\
  (forall e w2,
     send n customer order_id total w1 = (Raise e, w2) ->
     (forall m, e <> ValueError m) ->
     process_order sys order_data (pre ++ k :: post)%list w = (Raise e, sys1, w2)).
Proof.
  intros Hv Hid Hc Ht Hk Hpre.
  destruct (process_order_valid _ _ _ _ Hv Hid Hc Ht) as [ls Hrun].
  rewrite Hrun in Hpre.
  destruct (dispatch_loop_system _ _ _ _ _ _ _ _ _ Hpre) as (Hf & _ & _).
  assert (Hres : get_notifier (factory sys1) k = Ok n).
  { unfold get_notifier. by rewrite Hf, Hk. }
  split.
  - intros m w2 Hsend. rewrite Hrun, dispatch_loop_app, Hpre.
    cbn [dispatch_loop]. unfold channel_body. rewrite Hres, Hsend.
    by rewrite print_prints.
  - intros e w2 Hsend Hne. rewrite Hrun, dispatch_loop_app, Hpre.
    cbn [dispatch_loop]. unfold channel_body. rewrite Hres, Hsend.
    destruct e; try reflexivity. by destruct (Hne msg).
Qed.

(** ** The composite *)

Lemma composite_add_all name acc ms :
  fold_left composite_add ms (CompositeNotifier name acc) =
  CompositeNotifier name (acc ++ ms)%list.
Proof.
  revert acc. induction ms as [|m ms IH]; intros acc; cbn [fold_left composite_add].
  - by rewrite app_nil_r.
  - by rewrite IH, <- app_assoc.
Qed.

Lemma send_composite name ms customer order_id total w :
  send (CompositeNotifier name ms) customer order_id total w =
  match composite_loop (fun m => send m customer order_id total) ms []
          (prints [group_line name] (entered (CompositeNotifier name ms) w)) with
  | (Ok rs, w1) =>
      (Ok (composite_result name rs (iso_now (clock (w_env w1)))), tick w1)
  | (Raise e, w1) => (Raise e, w1)
  end.
Proof.
  cbn [send]. unfold bind at 1 2 3. unfold emit at 1. rewrite print_prints.
  fold (entered (CompositeNotifier name ms) w).
  destruct (composite_loop _ _ _ _) as [[rs|e] w1]; reflexivity.
Qed.

Lemma composite_loop_sent customer order_id total ms acc w rs w1 :
  members_sent customer order_id total ms w rs w1 ->
  composite_loop (fun m => send m customer order_id total) ms acc w =
  (Ok (acc ++ rs)%list, w1).
Proof.
  intros H. revert acc. induction H as [w|m ms w r w1 rs w2 Hm _ IH]; intros acc.
  - cbn. unfold ret. by rewrite app_nil_r.
  - cbn [composite_loop]. unfold bind. rewrite Hm, IH. by rewrite <- app_assoc.
Qed.

Lemma composite_loop_returned customer order_id total ms acc w res w1 :
  composite_loop (fun m => send m customer order_id total) ms acc w = (Ok res, w1) ->
  exists rs, res = (acc ++ rs)%list /\ members_sent customer order_id total ms w rs w1.
Proof.
  revert acc w. induction ms as [|m ms IH]; intros acc w H; cbn [composite_loop] in H.
  - injection H as <- <-. exists []. split; [by rewrite app_nil_r|constructor].
  - unfold bind in H.
    destruct (send m customer order_id total w) as [[r|e] w'] eqn:Hm; [|discriminate].
    destruct (IH _ _ H) as (rs & -> & Hrs).
    exists (r :: rs). split; [by rewrite <- app_assoc|by econstructor].
Qed.

Lemma composite_loop_raised customer order_id total pre m post acc w rs w1 e w2 :
  members_sent customer order_id total pre w rs w1 ->
  send m customer order_id total w1 = (Raise e, w2) ->
  composite_loop (fun m => send m customer order_id total) (pre ++ m :: post)%list acc w =
  (Raise e, w2).
Proof.
  intros H Hm. revert acc.
  induction H as [w|m' ms w r w1 rs w3 Hm' _ IH]; intros acc; cbn [app composite_loop].
  - unfold bind. by rewrite Hm.
  - unfold bind. rewrite Hm'. by apply IH.
Qed.

(** C7, as the code has it: the send of a composite built by adding the
    members [ms] one by one calls them in that order, each once and each in
    the world its predecessor left; when every member returns, the result
    holds exactly their results in that order, and a returned result is
    always of that form; when a member raises, its exception leaves the
    composite's send at once and the members after it are not called. *)
Theorem composite_aggregates name ms customer order_id total w :
  let c := fold_left composite_add ms (CompositeNotifier name []) in
  let w0 := prints [group_line name] (entered c w) in
  (forall rs w1,
     members_sent customer order_id total ms w0 rs w1 ->
     send c customer order_id total w =
     (Ok (composite_result name rs (iso_now (clock (w_env w1)))), tick w1)) /\
  (forall r w',
     send c customer order_id total w = (Ok r, w') ->
     exists rs w1,
       members_sent customer order_id total ms w0 rs w1 /\
       r = composite_result name rs (iso_now (clock (w_env w1))) /\ w' = tick w1) /\
  (forall pre m post rs w1 e w2,
     ms = (pre ++ m :: post)%list ->
     members_sent customer order_id total pre w0 rs w1 ->
     send m customer order_id total w1 = (Raise e, w2) ->
     send c customer order_id total w = (Raise e, w2)).
Proof.
  rewrite composite_add_all. cbn [app]. cbv zeta. repeat split.
  - intros rs w1 H. rewrite send_composite.
    by rewrite (composite_loop_sent _ _ _ _ [] _ _ _ H).
  - intros r w' H. rewrite send_composite in H.
    destruct (composite_loop _ _ _ _) as [[res|e] w1] eqn:E; [|discriminate].
    destruct (composite_loop_returned _ _ _ _ _ _ _ _ E) as (rs & -> & Hrs).
    injection H as <- <-. by exists rs, w1.
  - intros pre m post rs w1 e w2 -> H Hm. rewrite send_composite.
    by rewrite (composite_loop_raised _ _ _ _ _ _ [] _ _ _ _ _ H Hm).
Qed.

(** ** The retry decorator *)

Lemma send_retry inner max_retries customer order_id total w :
  send (RetryDecorator inner max_retries) customer order_id total w =
  retry_loop (send inner customer order_id total) max_retries (Z.to_nat max_retries) 0%Z
    (entered (RetryDecorator inner max_retries) w).
Proof. reflexivity. Qed.

(** One iteration of the retry loop whose attempt raises. *)
Lemma retry_loop_raised inner_send max_retries todo attempt w x w' :
  inner_send (prints ["   🔄 Intento " ++ py_str (PInt (attempt + 1)) ++ "/"
                      ++ py_str (PInt max_retries)] w) = (Raise x, w') ->
  retry_loop inner_send max_retries (S todo) attempt w =
  if (attempt =? max_retries - 1)%Z then (Raise x, w')
  else retry_loop inner_send max_retries todo (attempt + 1)%Z
         (prints ["   ⚠️ Error intento " ++ py_str (PInt (attempt + 1)) ++ ": "
                  ++ exn_str x] w').
Proof.
  intros H. cbn [retry_loop]. rewrite print_prints, H.
  destruct (attempt =? max_retries - 1)%Z; [reflexivity|].
  unfold bind. by rewrite print_prints.
Qed.

(** One iteration of the retry loop whose attempt returns. *)
Lemma retry_loop_returned inner_send max_retries todo attempt w r w' :
  inner_send (prints ["   🔄 Intento " ++ py_str (PInt (attempt + 1)) ++ "/"
                      ++ py_str (PInt max_retries)] w) = (Ok r, w') ->
  retry_loop inner_send max_retries (S todo) attempt w = (Ok r, w').
Proof. intros H. cbn [retry_loop]. by rewrite print_prints, H. Qed.

(** C8: an inner notifier that raises on its first two attempts and
    returns on the third: with [max_retries = 3] the retry decorator
    returns what the third attempt returned, and with [max_retries = 2] it
    raises the exception of the second attempt. *)
Theorem retry_third_attempt inner customer order_id total s0 x1 s1 x2 s2 s3 w :
  raises_at inner customer order_id total s0 x1 s1 ->
  raises_at inner customer order_id total s1 x2 s2 ->
  returns_at inner customer order_id total s2 s3 ->
  ext (w_env w) = s0 ->
  (exists wa r wb,
     ext (w_env wa) = s2 /\
     send inner customer order_id total wa = (Ok r, wb) /\
     send (RetryDecorator inner 3) customer order_id total w = (Ok r, wb)) /\
  (exists w',
     send (RetryDecorator inner 2) customer order_id total w = (Raise x2, w') /\
     ext (w_env w') = s2).
Proof.
  intros H1 H2 H3 Hw. split.
  - rewrite send_retry. change (Z.to_nat 3) with 3%nat.
    edestruct H1 as (w1 & E1 & Hs1); [|erewrite retry_loop_raised by exact E1];
      [by rewrite prints_ext|].
    edestruct H2 as (w2 & E2 & Hs2); [|erewrite retry_loop_raised by exact E2];
      [by rewrite prints_ext, prints_ext|].
    edestruct H3 as (r & w3 & E3 & Hs3); [|erewrite retry_loop_returned by exact E3];
      [by rewrite prints_ext, prints_ext|].
    cbn [Z.eqb Z.sub Z.add Z.opp Z.pos_sub Pos.eqb Pos.add Pos.succ].
    eexists _, r, w3. split; [|split; [exact E3|reflexivity]].
    by rewrite !prints_ext.
  - rewrite send_retry. change (Z.to_nat 2) with 2%nat.
    edestruct H1 as (w1 & E1 & Hs1); [|erewrite retry_loop_raised by exact E1];
      [by rewrite prints_ext|].
    edestruct H2 as (w2 & E2 & Hs2); [|erewrite retry_loop_raised by exact E2];
      [by rewrite prints_ext, prints_ext|].
    cbn [Z.eqb Z.sub Z.add Z.opp Z.pos_sub Pos.eqb Pos.add Pos.succ].
    by exists w2.
Qed.

(** ** What a send leaves in the trace *)

(** Induction on notifiers that reaches the members of a composite. *)
Section NotifierInd.
Variable P : notifier St -> Prop.
Hypothesis Hemail : P EmailNotifier.
Hypothesis Hsms : P SMSNotifier.
Hypothesis Hpush : P PushNotifier.
Hypothesis Hdeco : forall n, P n -> P (NotifierDecorator n).
Hypothesis Hretry : forall n k, P n -> P (RetryDecorator n k).
Hypothesis Hlogging : forall n, P n -> P (LoggingDecorator n).
Hypothesis Hcomposite : forall name ms, Forall P ms -> P (CompositeNotifier name ms).
Hypothesis Hcustom : forall ntype f, P (CustomNotifier ntype f).

Fixpoint notifier_members_ind (n : notifier St) : P n :=
  match n with
  | EmailNotifier => Hemail
  | SMSNotifier => Hsms
  | PushNotifier => Hpush
  | NotifierDecorator i => Hdeco i (notifier_members_ind i)
  | RetryDecorator i k => Hretry i k (notifier_members_ind i)
  | LoggingDecorator i => Hlogging i (notifier_members_ind i)
  | CompositeNotifier name ms =>
      Hcomposite name ms
        ((fix all (l : list (notifier St)) : Forall P l :=
            match l with
            | [] => @List.Forall_nil _ P
            | m :: l' => @List.Forall_cons _ P m l' (notifier_members_ind m) (all l')
            end) ms)
  | CustomNotifier ntype f => Hcustom ntype f
  end.
End NotifierInd.

Lemma no_update_same {A} (c : M St A) :
  (forall w r w', c w = (r, w') -> trace w' = trace w) -> no_update c.
Proof. intros H w r w' E. exists []. split; [|done]. by rewrite app_nil_r, (H _ _ _ E). Qed.

Lemma no_update_ret {A} (a : A) : no_update (ret a : M St A).
Proof. apply no_update_same. intros w r w' E. by injection E as _ <-. Qed.

Lemma no_update_lift {A} (r : result A) : no_update (lift r : M St A).
Proof. apply no_update_same. intros w r' w' E. by injection E as _ <-. Qed.

Lemma no_update_print s : no_update (print s : M St unit).
Proof. apply no_update_same. intros w r w' E. by injection E as _ <-. Qed.

Lemma no_update_now : no_update (now : M St string).
Proof. apply no_update_same. intros w r w' E. by injection E as _ <-. Qed.

Lemma no_update_run_env {A} (f : env St -> result A * env St) : no_update (run_env f).
Proof.
  apply no_update_same. intros w r w' E. unfold run_env in E.
  destruct (f (w_env w)). by injection E as _ <-.
Qed.

Lemma no_update_entered n : no_update (emit (EvSend n)).
Proof. intros w r w' E. injection E as _ <-. by exists [EvSend n]. Qed.

Lemma no_update_bind {A B} (c : M St A) (k : A -> M St B) :
  no_update c -> (forall a, no_update (k a)) -> no_update (bind c k).
Proof.
  intros Hc Hk w r w' E. unfold bind in E.
  destruct (c w) as [[a|e] w1] eqn:E1.
  - destruct (Hc _ _ _ E1) as (tr1 & T1 & U1).
    destruct (Hk a _ _ _ E) as (tr2 & T2 & U2).
    exists (tr1 ++ tr2)%list. split; [by rewrite T2, T1, app_assoc|].
    unfold updates_of in *. by rewrite flat_map_app, U1, U2.
  - injection E as _ <-. eauto.
Qed.

Lemma no_update_retry_loop (inner_send : M St pyval) max_retries todo attempt :
  no_update inner_send -> no_update (retry_loop inner_send max_retries todo attempt).
Proof.
  intros Hin. revert attempt. induction todo as [|todo IH]; intros attempt.
  - apply no_update_ret.
  - intros w r w' E. cbn [retry_loop] in E. rewrite print_prints in E.
    destruct (inner_send _) as [[a|e] w1] eqn:E1.
    + injection E as <- <-. destruct (Hin _ _ _ E1) as (tr & T & U). eauto.
    + destruct (Hin _ _ _ E1) as (tr1 & T1 & U1). rewrite prints_trace in T1.
      destruct (attempt =? max_retries - 1)%Z.
      * injection E as _ <-. eauto.
      * unfold bind in E. rewrite print_prints in E.
        destruct (IH _ _ _ _ E) as (tr2 & T2 & U2). rewrite prints_trace in T2.
        exists (tr1 ++ tr2)%list. split; [by rewrite T2, T1, app_assoc|].
        unfold updates_of in *. by rewrite flat_map_app, U1, U2.
Qed.

Lemma no_update_composite_loop (send_one : notifier St -> M St pyval) ms acc :
  Forall (fun m => no_update (send_one m)) ms ->
  no_update (composite_loop send_one ms acc).
Proof.
  intros H. revert acc. induction H as [|m ms Hm _ IH]; intros acc; cbn [composite_loop].
  - apply no_update_ret.
  - apply no_update_bind; [exact Hm|]. intros r. apply IH.
Qed.

Lemma no_update_send n customer order_id total :
  no_update (send n customer order_id total).
Proof.
  induction n as [| | |n IH|n k IH|n IH|name ms IH|ntype f] using notifier_members_ind;
    cbn [send]; (apply no_update_bind; [apply no_update_entered|intros _]).
  - unfold email_send.
    repeat first [apply no_update_bind; [|intros ?]
                 |apply no_update_lift|apply no_update_print
                 |apply no_update_now|apply no_update_ret].
  - unfold sms_send.
    repeat first [apply no_update_bind; [|intros ?]
                 |apply no_update_lift|apply no_update_print
                 |apply no_update_now|apply no_update_ret].
  - unfold push_send.
    repeat first [apply no_update_bind; [|intros ?]
                 |apply no_update_lift|apply no_update_print
                 |apply no_update_now|apply no_update_ret].
  - exact IH.
  - by apply no_update_retry_loop.
  - repeat first [exact IH|apply no_update_bind; [|intros ?]
                 |apply no_update_print|apply no_update_ret].
  - apply no_update_bind; [apply no_update_print|intros _].
    apply no_update_bind; [by apply no_update_composite_loop|intros rs].
    apply no_update_bind; [apply no_update_now|intros ts]. apply no_update_ret.
  - apply no_update_bind; [apply no_update_run_env|intros d]. apply no_update_ret.
Qed.

(** ** What a send returns *)

Lemma returns_dict_ret d : returns_dict (ret (PDict d) : M St pyval).
Proof. intros w r w' E. injection E as <- _. eauto. Qed.

Lemma returns_dict_bind {A} (c : M St A) (k : A -> M St pyval) :
  (forall a, returns_dict (k a)) -> returns_dict (bind c k).
Proof.
  intros Hk w r w' E. unfold bind in E.
  destruct (c w) as [[a|e] w1]; [by eapply Hk|discriminate].
Qed.

Lemma returns_dict_retry_loop (inner_send : M St pyval) max_retries todo attempt :
  returns_dict inner_send -> returns_dict (retry_loop inner_send max_retries todo attempt).
Proof.
  intros Hin. revert attempt. induction todo as [|todo IH]; intros attempt.
  - apply returns_dict_ret.
  - intros w r w' E. cbn [retry_loop] in E. rewrite print_prints in E.
    destruct (inner_send _) as [[a|e] w1] eqn:E1.
    + injection E as <- <-. by eapply Hin.
    + destruct (attempt =? max_retries - 1)%Z; [discriminate|].
      unfold bind in E. rewrite print_prints in E. by eapply IH.
Qed.

Lemma send_returns_dict n customer order_id total :
  returns_dict (send n customer order_id total).
Proof.
  induction n as [| | |n IH|n k IH|n IH|name ms IH|ntype f] using notifier_members_ind;
    cbn [send]; (apply returns_dict_bind; intros _).
  - unfold email_send. repeat (apply returns_dict_bind; intros ?). apply returns_dict_ret.
  - unfold sms_send. repeat (apply returns_dict_bind; intros ?). apply returns_dict_ret.
  - unfold push_send. repeat (apply returns_dict_bind; intros ?). apply returns_dict_ret.
  - exact IH.
  - by apply returns_dict_retry_loop.
  - apply returns_dict_bind; intros _.
    intros w r w' E. unfold bind in E.
    destruct (send n customer order_id total w) as [[a|e] w1] eqn:E1; [|discriminate].
    rewrite print_prints in E. injection E as <- _. by eapply IH.
  - repeat (apply returns_dict_bind; intros ?). apply returns_dict_ret.
  - apply returns_dict_bind; intros d. apply returns_dict_ret.
Qed.

(** ** Forwarding to the listeners *)

Lemma updates_of_app tr1 tr2 :
  updates_of (tr1 ++ tr2)%list = (updates_of tr1 ++ updates_of tr2)%list.
Proof. unfold updates_of. apply flat_map_app. Qed.


(** Listeners that return are all called, first registered first. *)
Lemma notify_observers_all obs d w :
  Forall listener_returns obs ->
  exists w',
    _notify_observers obs (PDict d) w = (Ok tt, w') /\
    trace w' = (trace w ++ map (fun o => EvUpdate (obs_id o) (PDict d)) obs)%list.
Proof.
  intros H. revert w. induction H as [|o obs Ho _ IH]; intros w.
  - exists w. split; [done|]. by rewrite app_nil_r.
  - cbn [_notify_observers]. unfold bind, emit, run_env. cbn [w_env trace].
    destruct (Ho d (w_env w)) as [e' ->].
    destruct (IH (World e' (trace w ++ [EvUpdate (obs_id o) (PDict d)])%list)) as (w' & -> & T).
    exists w'. split; [done|]. rewrite T. cbn [trace map]. by rewrite <- app_assoc.
Qed.



(** [process_order] either stops before the loop, with the system as it
    was and some lines printed, or runs the loop after printing. *)
Lemma process_order_cases sys order_data kinds w :
  exists ls,
    (exists r, process_order sys order_data kinds w = (r, sys, prints ls w)) \/
    (exists customer order_id total,
        process_order sys order_data kinds w =
        dispatch_loop sys customer order_id total kinds (prints ls w)).
Proof.
  unfold process_order.
  destruct (subscript (PDict order_data) "order_id") as [oid|e];
    [|exists []; left; exists (Raise e); by rewrite prints_nil].
  destruct (subscript (PDict order_data) "customer") as [c|e];
    [|exists []; left; exists (Raise e); by rewrite prints_nil].
  destruct (subscript (PDict order_data) "total") as [t|e];
    [|exists []; left; exists (Raise e); by rewrite prints_nil].
  rewrite !print_prints, prints_prints.
  destruct (subscript c "name") as [name|e]; [|eexists; left; by eexists].
  rewrite !print_prints, !prints_prints, validate_chain_unfold.
  destruct (check_order_id order_data) as [[|]|e];
    rewrite ?print_prints, ?prints_prints; try (eexists; left; by eexists).
  destruct (check_customer order_data) as [[|]|e];
    rewrite ?print_prints, ?prints_prints; try (eexists; left; by eexists).
  destruct (check_total order_data) as [[|]|e];
    rewrite ?print_prints, ?prints_prints; try (eexists; left; by eexists).
  eexists; right; by eexists _, _, _.
Qed.

(** ** The history *)


(** ** One result per registered type *)

Lemma dispatch_loop_all_return sys customer order_id total kinds w :
  (forall k n, In k kinds -> factory sys !! k = Some n ->
     forall w0, exists r w1, send n customer order_id total w0 = (Ok r, w1)) ->
  Forall listener_returns (observers sys) ->
  exists rs sys' w',
    dispatch_loop sys customer order_id total kinds w = (Ok tt, sys', w') /\
    notifications_sent sys' = (notifications_sent sys ++ rs)%list /\
    Forall2 (result_of (factory sys) customer order_id total)
            (registered_kinds (factory sys) kinds) rs.
Proof.
  revert sys w. induction kinds as [|k kinds IH]; intros sys w Hsend Hobs.
  - exists [], sys, w. repeat split; [by rewrite app_nil_r|constructor].
  - cbn [dispatch_loop]. unfold channel_body, get_notifier, registered_kinds.
    destruct (factory sys !! k) as [n|] eqn:Ek.
    + cbn [notifier_truthy].
      destruct (Hsend k n (or_introl eq_refl) Ek w) as (r & w1 & Es). rewrite Es.
      cbn [log observers].
      destruct (send_returns_dict _ _ _ _ _ _ _ Es) as [d ->].
      destruct (notify_observers_all (observers sys) d w1 Hobs) as (w2 & -> & _).
      set (r := PDict d) in *.
      destruct (IH (log r sys) w2) as (rs & sys' & w' & -> & Hh & Hrs).
      { intros k' n' Hin. apply Hsend. by right. }
      { exact Hobs. }
      exists (r :: rs), sys', w'. repeat split.
      * rewrite Hh. cbn [log notifications_sent]. by rewrite <- app_assoc.
      * rewrite filter_cons_True by (rewrite Ek; eauto).
        constructor; [by exists n, w, w1|exact Hrs].
    + rewrite print_prints.
      destruct (IH sys (prints ["⚠️ Error: " ++ exn_str (ValueError ("Tipo no soportado: " ++ k)) ++ nl] w))
        as (rs & sys' & w' & -> & Hh & Hrs).
      { intros k' n' Hin. apply Hsend. by right. }
      { exact Hobs. }
      exists rs, sys', w'. repeat split; [exact Hh|].
      rewrite filter_cons_False; [exact Hrs|]. rewrite Ek. by intros [? ?].
Qed.


(** ** The order builder *)

Implicit Types (b : order_builder) (cs : list builder_call).

(** What [build] returns, field by field and check by check. *)
Lemma build_returns b order_data :
  build b = Ok order_data ->
  dict_get order_data "order_id" = Some (_order_id b) /\
  dict_get order_data "customer" =
    Some (PDict [("name", _customer_name b); ("email", _customer_email b);
                 ("phone", _customer_phone b); ("device_id", _customer_device_id b)]) /\
  dict_get order_data "total" = Some (_total b) /\
  check_order_id order_data = Ok true /\
  check_customer order_data = Ok (truthy (_customer_email b)) /\
  check_total order_data =
    match le_zero (_total b) with
    | Ok not_positive => Ok (negb not_positive)
    | Raise e => Raise e
    end.
Proof.
  unfold build. intros Hb.
  destruct (truthy (_order_id b)) eqn:Hid; [|discriminate].
  destruct (truthy (_customer_name b)) eqn:Hname; [|discriminate].
  injection Hb as <-.
  repeat split.
  - unfold check_order_id, dict_get_default. cbn. by rewrite Hid.
  - unfold check_customer, dict_get_default. cbn. by rewrite Hname.
Qed.

(** X1: an order that [build] returns carries the three keys
    [process_order] reads and a customer dict with the four keys the
    notifiers read; it passes the identifier check; it passes the customer
    check exactly when its email is truthy, and its total is checked as the
    builder holds it: [build] itself checks the identifier and the name
    only. *)
Theorem build_order_checks b order_data :
  build b = Ok order_data ->
  dict_get order_data "order_id" = Some (_order_id b) /\
  dict_get order_data "customer" =
    Some (PDict [("name", _customer_name b); ("email", _customer_email b);
                 ("phone", _customer_phone b); ("device_id", _customer_device_id b)]) /\
  dict_get order_data "total" = Some (_total b) /\
  check_order_id order_data = Ok true /\
  check_customer order_data = Ok (truthy (_customer_email b)) /\
  check_total order_data =
    match le_zero (_total b) with
    | Ok not_positive => Ok (negb not_positive)
    | Raise e => Raise e
    end.
Proof. apply build_returns. Qed.

Lemma apply_calls_items cs b :
  _items (apply_calls cs b) = (_items b ++ items_added cs)%list.
Proof.
  unfold apply_calls. revert b. induction cs as [|c cs IH]; intros b.
  - cbn. by rewrite app_nil_r.
  - cbn [fold_left]. rewrite IH. destruct c; cbn; [done|done|done|].
    by rewrite <- app_assoc.
Qed.

Lemma apply_calls_total cs b :
  forallb (fun c => negb (sets_total c)) cs = true ->
  _total (apply_calls cs b) = _total b.
Proof.
  unfold apply_calls. revert b. induction cs as [|c cs IH]; intros b Hcs; [done|].
  cbn in Hcs. apply andb_prop in Hcs as [Hc Hcs].
  cbn [fold_left]. rewrite IH by done. by destruct c.
Qed.

(** X2: an order built by a sequence of calls with no [with_total] keeps
    the builder's default total 0.0, and [process_order] always rejects
    it: it returns normally with the system as it was, and no notifier and
    no listener is called. *)
Theorem build_without_total_rejected cs order_data sys kinds w :
  forallb (fun c => negb (sets_total c)) cs = true ->
  build (apply_calls cs new_builder) = Ok order_data ->
  dict_get order_data "total" = Some (PFloat 0%float) /\
  exists ls,
    process_order sys order_data kinds w = (Ok tt, sys, prints ls w).
Proof.
  intros Hcs Hb.
  destruct (build_returns _ _ Hb) as (Hid & Hc & Ht & Cid & Cc & Ct).
  rewrite (apply_calls_total _ _ Hcs) in Ht, Ct. cbn in Ht, Ct.
  split; [exact Ht|].
  rewrite (process_order_fields sys _ kinds w _ _ _ Hid Hc Ht).
  cbn [subscript dict_get String.eqb Ascii.eqb Bool.eqb].
  rewrite validate_chain_unfold, Cid, Cc, Ct.
  destruct (truthy (_customer_email (apply_calls cs new_builder)));
    rewrite !prints_prints; eauto.
Qed.

(** X3: the items of a builder are the items added, in call order,
    whatever other calls come in between; [build] hands them over under
    'items'. *)
Theorem build_items_in_call_order cs b order_data :
  _items (apply_calls cs b) = (_items b ++ items_added cs)%list /\
  (build (apply_calls cs b) = Ok order_data ->
   dict_get order_data "items" = Some (PList (_items b ++ items_added cs)%list)).
Proof.
  split; [apply apply_calls_items|].
  intros Hb. unfold build in Hb.
  destruct (negb _ || negb _); [discriminate|]. injection Hb as <-.
  cbn. by rewrite apply_calls_items.
Qed.

(** ** The primitive notifiers *)

Lemma valid_order_customer order_data :
  valid_order order_data ->
  exists (fields : pydict) name email,
    dict_get order_data "customer" = Some (PDict fields) /\
    dict_get fields "name" = Some name /\
    dict_get fields "email" = Some email.
Proof.
  intros (_ & Hc & _).
  unfold check_customer, dict_get_default in Hc.
  destruct (dict_get order_data "customer") as [c|]; [|discriminate].
  destruct c as [| | | | | |d]; try discriminate.
  unfold method_get, dict_get_default in Hc.
  destruct (dict_get d "name") as [name|] eqn:E1; [|discriminate].
  destruct (truthy name); [|discriminate]. cbn in Hc.
  destruct (dict_get d "email") as [email|] eqn:E2; [|discriminate].
  by exists d, name, email.
Qed.

Lemma send_email_returns (fields : pydict) name email order_id total w :
  dict_get fields "name" = Some name ->
  dict_get fields "email" = Some email ->
  exists r w',
    send EmailNotifier (PDict fields) order_id total w = (Ok (PDict r), w') /\
    dict_get r "type" = Some (PStr "email") /\ dict_get r "to" = Some email.
Proof.
  intros Hn He. cbn [send]. unfold bind, emit, email_send, lift, print, now, ret.
  cbn [subscript]. rewrite Hn, He. by eexists _, _.
Qed.

Lemma send_sms_returns (fields : pydict) phone order_id total w :
  dict_get fields "phone" = Some phone ->
  exists r w',
    send SMSNotifier (PDict fields) order_id total w = (Ok (PDict r), w') /\
    dict_get r "type" = Some (PStr "sms") /\ dict_get r "to" = Some phone.
Proof.
  intros Hp. cbn [send]. unfold bind, emit, sms_send, lift, print, now, ret.
  cbn [subscript]. rewrite Hp. by eexists _, _.
Qed.

Lemma send_push_returns (fields : pydict) device order_id total w :
  dict_get fields "device_id" = Some device ->
  exists r w',
    send PushNotifier (PDict fields) order_id total w = (Ok (PDict r), w') /\
    dict_get r "type" = Some (PStr "push") /\ dict_get r "to" = Some device.
Proof.
  intros Hd. cbn [send]. unfold bind, emit, push_send, lift, print, now, ret.
  cbn [subscript]. rewrite Hd. by eexists _, _.
Qed.

(** X4: for the customer of an order that passes validation, the email
    notifier always returns, addressed to the customer's email; the SMS
    notifier returns when the customer has a 'phone' key and raises
    [KeyError] with nothing printed when it has none; the push notifier
    does the same with 'device_id'. *)
Theorem primitive_sends_on_valid_order order_data customer order_id total w :
  valid_order order_data ->
  dict_get order_data "customer" = Some customer ->
  exists fields : pydict,
    customer = PDict fields /\
    (exists email r w',
        dict_get fields "email" = Some email /\
        send EmailNotifier customer order_id total w = (Ok (PDict r), w') /\
        dict_get r "type" = Some (PStr "email") /\ dict_get r "to" = Some email) /\
    (forall phone, dict_get fields "phone" = Some phone ->
        exists r w',
          send SMSNotifier customer order_id total w = (Ok (PDict r), w') /\
          dict_get r "type" = Some (PStr "sms") /\ dict_get r "to" = Some phone) /\
    (dict_get fields "phone" = None ->
        send SMSNotifier customer order_id total w =
        (Raise (KeyError "phone"), entered SMSNotifier w)) /\
    (forall device, dict_get fields "device_id" = Some device ->
        exists r w',
          send PushNotifier customer order_id total w = (Ok (PDict r), w') /\
          dict_get r "type" = Some (PStr "push") /\ dict_get r "to" = Some device) /\
    (dict_get fields "device_id" = None ->
        send PushNotifier customer order_id total w =
        (Raise (KeyError "device_id"), entered PushNotifier w)).
Proof.
  intros Hv Hc.
  destruct (valid_order_customer _ Hv) as (fields & name & email & Hc' & Hn & He).
  rewrite Hc in Hc'. injection Hc' as ->.
  exists fields. split; [done|]. split; [|split; [|split; [|split]]].
  - destruct (send_email_returns fields name email order_id total w Hn He)
      as (r & w' & Hs & Ht & Hto).
    by exists email, r, w'.
  - intros phone Hp. by apply send_sms_returns.
  - intros Hp. cbn [send]. unfold bind, emit, sms_send, lift.
    cbn [subscript]. by rewrite Hp.
  - intros device Hd. by apply send_push_returns.
  - intros Hd. cbn [send]. unfold bind, emit, push_send, lift.
    cbn [subscript]. by rewrite Hd.
Qed.

(** ** Notifiers of the program on a customer with every key *)

Lemma always_returns_bind {A B} (c : M St A) (k : A -> M St B) :
  always_returns c -> (forall a, always_returns (k a)) -> always_returns (bind c k).
Proof.
  intros Hc Hk w. unfold bind.
  destruct (Hc w) as (a & w1 & ->). apply Hk.
Qed.

Lemma always_returns_retry_loop (inner_send : M St pyval) max_retries todo attempt :
  always_returns inner_send ->
  always_returns (retry_loop inner_send max_retries todo attempt).
Proof.
  intros Hin w. destruct todo as [|todo]; [by eexists _, _|].
  cbn [retry_loop]. rewrite print_prints.
  destruct (Hin (prints ["   🔄 Intento " ++ py_str (PInt (attempt + 1)) ++ "/"
                         ++ py_str (PInt max_retries)] w)) as (r & w1 & ->).
  by eexists _, _.
Qed.

Lemma always_returns_composite_loop (send_one : notifier St -> M St pyval) ms acc :
  Forall (fun m => always_returns (send_one m)) ms ->
  always_returns (composite_loop send_one ms acc).
Proof.
  intros Hms. revert acc. induction Hms as [|m ms Hm _ IH]; intros acc; cbn [composite_loop].
  - intros w. by eexists _, _.
  - apply always_returns_bind; [exact Hm|]. intros r. apply IH.
Qed.

Lemma builtin_always_returns n (fields : pydict) order_id total :
  builtin n = true ->
  has_keys fields ["name"; "email"; "phone"; "device_id"] ->
  always_returns (send n (PDict fields) order_id total).
Proof.
  intros Hb Hk.
  apply Forall_cons in Hk as [[name Hn] Hk].
  apply Forall_cons in Hk as [[email He] Hk].
  apply Forall_cons in Hk as [[phone Hp] Hk].
  apply Forall_cons in Hk as [[device Hd] _].
  induction n as [| | |n IH|n k IH|n IH|name' ms IH|ntype f] using notifier_members_ind.
  - intros w. destruct (send_email_returns fields name email order_id total w Hn He)
      as (r & w' & Hs & _). eauto.
  - intros w. destruct (send_sms_returns fields phone order_id total w Hp)
      as (r & w' & Hs & _). eauto.
  - intros w. destruct (send_push_returns fields device order_id total w Hd)
      as (r & w' & Hs & _). eauto.
  - cbn [send]. apply always_returns_bind; [by intros w; eexists _, _|intros _].
    by apply IH.
  - cbn [send]. apply always_returns_bind; [by intros w; eexists _, _|intros _].
    apply always_returns_retry_loop. by apply IH.
  - cbn [send]. apply always_returns_bind; [by intros w; eexists _, _|intros _].
    apply always_returns_bind; [by intros w; eexists _, _|intros _].
    apply always_returns_bind; [by apply IH|intros r].
    apply always_returns_bind; [by intros w; eexists _, _|intros _].
    intros w. by eexists _, _.
  - cbn [send]. apply always_returns_bind; [by intros w; eexists _, _|intros _].
    apply always_returns_bind; [by intros w; eexists _, _|intros _].
    apply always_returns_bind.
    + apply always_returns_composite_loop.
      cbn [builtin] in Hb. rewrite forallb_forall in Hb.
      rewrite Forall_forall in IH |- *. intros m Hm. apply IH; [done|].
      apply Hb. by apply list_elem_of_In.
    + intros rs. apply always_returns_bind; [by intros w; eexists _, _|intros ts].
      intros w. by eexists _, _.
  - discriminate.
Qed.

(** X5: an order that [build] returns and that passes validation never
    makes a notifier of the program raise: when every requested registered
    notifier is made of the program's classes (primitives, decorators,
    composites) and the listeners return, [process_order] returns normally
    and has appended one result per requested registered type, in request
    order. *)
Theorem built_order_dispatches b order_data sys kinds w :
  build b = Ok order_data ->
  valid_order order_data ->
  (forall k n, In k kinds -> factory sys !! k = Some n -> builtin n = true) ->
  Forall listener_returns (observers sys) ->
  exists customer rs sys' w',
    dict_get order_data "customer" = Some customer /\
    process_order sys order_data kinds w = (Ok tt, sys', w') /\
    get_notification_history sys' = (get_notification_history sys ++ rs)%list /\
    Forall2 (result_of (factory sys) customer (_order_id b) (_total b))
            (registered_kinds (factory sys) kinds) rs.
Proof.
  intros Hb Hv Hreg Hobs.
  destruct (build_returns _ _ Hb) as (Hid & Hc & Ht & _).
  destruct (process_order_valid _ _ _ _ Hv Hid Hc Ht) as [ls Hrun].
  eexists. rewrite Hrun.
  edestruct (dispatch_loop_all_return sys) as (rs & sys' & w' & Hd & Hh & Hrs);
    [|exact Hobs|exists rs, sys', w'; split; [exact Hc|split; [exact Hd|split; [exact Hh|exact Hrs]]]].
  intros k n Hin Hk. apply builtin_always_returns; [by eapply Hreg|].
  repeat constructor; by eexists.
Qed.

(** ** Validator chains of any shape *)

Section ValidatorInd.
Variable P : validator -> Prop.
Hypothesis Hid : forall next,
  match next with Some v => P v | None => True end -> P (OrderIdValidator next).
Hypothesis Hcustomer : forall next,
  match next with Some v => P v | None => True end -> P (CustomerValidator next).
Hypothesis Htotal : forall next,
  match next with Some v => P v | None => True end -> P (TotalValidator next).

Fixpoint validator_next_ind (v : validator) : P v :=
  match v with
  | OrderIdValidator next =>
      Hid next (match next with Some v' => validator_next_ind v' | None => I end)
  | CustomerValidator next =>
      Hcustomer next (match next with Some v' => validator_next_ind v' | None => I end)
  | TotalValidator next =>
      Htotal next (match next with Some v' => validator_next_ind v' | None => I end)
  end.
End ValidatorInd.

Lemma validate_checks_outcome (v : validator) order_data w :
  validate v order_data w =
  ((checks_outcome (chain_checks v) order_data).1,
   prints (checks_outcome (chain_checks v) order_data).2 w).
Proof.
  revert w. induction v as [next IH|next IH|next IH] using validator_next_ind; intros w;
    cbn [validate chain_checks checks_outcome run_check]; unfold bind, lift.
  - destruct (check_order_id order_data) as [[|]|e]; cbn [negb];
      rewrite ?print_prints; cbn [fst snd]; rewrite ?prints_nil; try reflexivity.
    destruct next as [v'|].
    + rewrite IH. destruct (checks_outcome _ _) as [r ls]. cbn [fst snd line_passed].
      by rewrite prints_prints.
    + reflexivity.
  - destruct (check_customer order_data) as [[|]|e]; cbn [negb];
      rewrite ?print_prints; cbn [fst snd]; rewrite ?prints_nil; try reflexivity.
    destruct next as [v'|].
    + rewrite IH. destruct (checks_outcome _ _) as [r ls]. cbn [fst snd line_passed].
      by rewrite prints_prints.
    + reflexivity.
  - destruct (check_total order_data) as [[|]|e]; cbn [negb];
      rewrite ?print_prints; cbn [fst snd]; rewrite ?prints_nil; try reflexivity.
    destruct next as [v'|].
    + rewrite IH. destruct (checks_outcome _ _) as [r ls]. cbn [fst snd line_passed].
      by rewrite prints_prints.
    + reflexivity.
Qed.

Lemma checks_outcome_passed ks order_data :
  Forall (fun k => run_check k order_data = Ok true) ks ->
  checks_outcome ks order_data = (Ok true, map line_passed ks).
Proof.
  induction 1 as [|k ks Hk _ IH]; [done|].
  cbn [checks_outcome map]. by rewrite Hk, IH.
Qed.

Lemma checks_outcome_stops pre k post order_data :
  Forall (fun k => run_check k order_data = Ok true) pre ->
  checks_outcome (pre ++ k :: post) order_data =
  match run_check k order_data with
  | Raise e => (Raise e, map line_passed pre)
  | Ok false => (Ok false, map line_passed pre ++ [line_failed k])%list
  | Ok true =>
      ((checks_outcome post order_data).1,
       map line_passed pre ++ line_passed k :: (checks_outcome post order_data).2)%list
  end.
Proof.
  induction 1 as [|k' pre Hk' _ IH]; cbn [app checks_outcome map].
  - destruct (run_check k order_data) as [[|]|e]; try reflexivity.
    by destruct (checks_outcome post order_data).
  - rewrite Hk', IH. by destruct (run_check k order_data) as [[|]|e].
Qed.

(** X6: a validator chain of any shape and length runs its validators
    first to last: it returns [True], with one valid-line per validator,
    when all of them pass (a validator with no successor passes on what it
    found); at the first validator that fails it returns [False] and
    prints that validator's failure line after the valid-lines of those
    before it; at the first one that raises, its exception leaves the
    chain: no validator after the first failure is run. *)
Theorem validate_any_chain (v : validator) order_data w :
  (Forall (fun k => run_check k order_data = Ok true) (chain_checks v) ->
   validate v order_data w = (Ok true, prints (map line_passed (chain_checks v)) w)) /\
  (forall pre k post,
     chain_checks v = (pre ++ k :: post)%list ->
     Forall (fun k => run_check k order_data = Ok true) pre ->
     run_check k order_data = Ok false ->
     validate v order_data w =
     (Ok false, prints (map line_passed pre ++ [line_failed k])%list w)) /\
  (forall pre k post e,
     chain_checks v = (pre ++ k :: post)%list ->
     Forall (fun k => run_check k order_data = Ok true) pre ->
     run_check k order_data = Raise e ->
     validate v order_data w = (Raise e, prints (map line_passed pre) w)).
Proof.
  rewrite validate_checks_outcome. split; [|split].
  - intros Hall. by rewrite (checks_outcome_passed _ _ Hall).
  - intros pre k post -> Hpre Hk. by rewrite (checks_outcome_stops _ _ _ _ Hpre), Hk.
  - intros pre k post e -> Hpre Hk. by rewrite (checks_outcome_stops _ _ _ _ Hpre), Hk.
Qed.

(** ** Orders that fail validation *)

(** X7: [process_order] on an order that does not pass validation, for
    whatever reason, calls no notifier and no listener, reads no clock and
    leaves the system, the history included, as it was: it only prints (or
    raises while it reads or checks the order). *)
Theorem invalid_order_not_dispatched sys order_data kinds w r sys' w' :
  ~ valid_order order_data ->
  process_order sys order_data kinds w = (r, sys', w') ->
  sys' = sys /\
  exists ls, w' = prints ls w.
Proof.
  intros Hinv Hrun.
  unfold process_order in Hrun.
  destruct (subscript (PDict order_data) "order_id") as [oid|e];
    [|injection Hrun as _ <- <-; split; [done|exists []; by rewrite prints_nil]].
  destruct (subscript (PDict order_data) "customer") as [c|e];
    [|injection Hrun as _ <- <-; split; [done|exists []; by rewrite prints_nil]].
  destruct (subscript (PDict order_data) "total") as [t|e];
    [|injection Hrun as _ <- <-; split; [done|exists []; by rewrite prints_nil]].
  rewrite !print_prints, prints_prints in Hrun.
  destruct (subscript c "name") as [name|e];
    [|injection Hrun as _ <- <-; split; [done|by eexists]].
  rewrite !print_prints, !prints_prints, validate_chain_unfold in Hrun.
  destruct (check_order_id order_data) as [[|]|e] eqn:E1;
    rewrite ?print_prints, ?prints_prints in Hrun;
    try (injection Hrun as _ <- <-; split; [done|by eexists]).
  destruct (check_customer order_data) as [[|]|e] eqn:E2;
    rewrite ?print_prints, ?prints_prints in Hrun;
    try (injection Hrun as _ <- <-; split; [done|by eexists]).
  destruct (check_total order_data) as [[|]|e] eqn:E3;
    rewrite ?print_prints, ?prints_prints in Hrun;
    try (injection Hrun as _ <- <-; split; [done|by eexists]).
  by destruct Hinv.
Qed.

(** ** The retry decorator, any number of attempts *)

(** X8: a retry decorator whose [max_retries] is zero or negative never
    calls the notifier it wraps: its send returns the empty dict, with
    nothing printed. *)
Theorem retry_without_attempts inner max_retries customer order_id total w :
  (max_retries <= 0)%Z ->
  send (RetryDecorator inner max_retries) customer order_id total w =
  (Ok (PDict []), entered (RetryDecorator inner max_retries) w).
Proof.
  intros Hmax. rewrite send_retry.
  replace (Z.to_nat max_retries) with 0%nat by lia. reflexivity.
Qed.

Lemma retry_loop_after_failures inner customer order_id total max_retries s0 xs s s' :
  raises_through inner customer order_id total s0 xs s ->
  returns_at inner customer order_id total s s' ->
  forall todo attempt w,
    ext (w_env w) = s0 ->
    (Z.of_nat todo + attempt = max_retries)%Z ->
    (length xs < todo)%nat ->
    exists wa r wb,
      ext (w_env wa) = s /\
      send inner customer order_id total wa = (Ok r, wb) /\
      retry_loop (send inner customer order_id total) max_retries todo attempt w = (Ok r, wb).
Proof.
  intros Hxs Hret. induction Hxs as [s|s x s1 xs s2 Hx _ IH];
    intros todo attempt w Hw Hsum Hlen.
  - destruct todo as [|todo]; [cbn in Hlen; lia|].
    edestruct Hret as (r & wb & E & _); [|erewrite retry_loop_returned by exact E];
      [by rewrite prints_ext|].
    eexists _, r, wb. split; [|split; [exact E|reflexivity]]. by rewrite prints_ext.
  - destruct todo as [|todo]; [cbn in Hlen; lia|]. cbn [length] in Hlen.
    edestruct Hx as (w1 & E & Hs1); [|erewrite retry_loop_raised by exact E];
      [by rewrite prints_ext|].
    replace (attempt =? max_retries - 1)%Z with false by (symmetry; apply Z.eqb_neq; lia).
    apply (IH Hret); [by rewrite prints_ext|lia|lia].
Qed.

Lemma retry_loop_all_fail inner customer order_id total max_retries xs :
  forall s0 x s todo attempt w,
    raises_through inner customer order_id total s0 (xs ++ [x])%list s ->
    ext (w_env w) = s0 ->
    (Z.of_nat todo + attempt = max_retries)%Z ->
    todo = length (xs ++ [x])%list ->
    exists w',
      retry_loop (send inner customer order_id total) max_retries todo attempt w =
        (Raise x, w') /\
      ext (w_env w') = s.
Proof.
  induction xs as [|x0 xs IH]; intros s0 x s todo attempt w Hxs Hw Hsum ->.
  - cbn [app length] in *. revert Hsum.
    inversion Hxs as [|? ? s1 ? ? Hx Hnil]; subst.
    inversion Hnil; subst. intros Hsum.
    edestruct Hx as (w1 & E & Hs1); [|erewrite retry_loop_raised by exact E];
      [by rewrite prints_ext|].
    replace (attempt =? max_retries - 1)%Z with true by (symmetry; apply Z.eqb_eq; lia).
    by exists w1.
  - cbn [app length] in *. revert Hsum.
    inversion Hxs as [|? ? s1 ? ? Hx Hrest]; subst. intros Hsum.
    edestruct Hx as (w1 & E & Hs1); [|erewrite retry_loop_raised by exact E];
      [by rewrite prints_ext|].
    replace (attempt =? max_retries - 1)%Z with false by
      (symmetry; apply Z.eqb_neq; rewrite length_app in Hsum; cbn in Hsum; lia).
    eapply IH; [exact Hrest|by rewrite prints_ext|lia|reflexivity].
Qed.

(** X9: when the wrapped notifier raises on its first attempts, fewer
    than [max_retries] of them, and returns on the next, the retry
    decorator returns what that attempt returned. *)
Theorem retry_returns_after_failures inner max_retries customer order_id total
    s0 xs s s' w :
  raises_through inner customer order_id total s0 xs s ->
  returns_at inner customer order_id total s s' ->
  (Z.of_nat (length xs) < max_retries)%Z ->
  ext (w_env w) = s0 ->
  exists wa r wb,
    ext (w_env wa) = s /\
    send inner customer order_id total wa = (Ok r, wb) /\
    send (RetryDecorator inner max_retries) customer order_id total w = (Ok r, wb).
Proof.
  intros Hxs Hret Hlen Hw. rewrite send_retry.
  eapply retry_loop_after_failures; [exact Hxs|exact Hret|done|lia|lia].
Qed.

(** X10: when the wrapped notifier raises on each of its first
    [max_retries] attempts (at least one), the retry decorator makes
    exactly those attempts and raises the exception of the last one. *)
Theorem retry_exhausted inner max_retries customer order_id total s0 xs x s w :
  raises_through inner customer order_id total s0 (xs ++ [x])%list s ->
  Z.of_nat (length (xs ++ [x])%list) = max_retries ->
  ext (w_env w) = s0 ->
  exists w',
    send (RetryDecorator inner max_retries) customer order_id total w = (Raise x, w') /\
    ext (w_env w') = s.
Proof.
  intros Hxs Hlen Hw. rewrite send_retry.
  eapply retry_loop_all_fail; [exact Hxs|done|lia|lia].
Qed.

(** ** Notifiers of the program and the environment *)

Lemma keeps_state_same {A} (c : M St A) :
  (forall w r w', c w = (r, w') -> w_env w' = w_env w) -> keeps_state c.
Proof.
  intros Hc w r w' E. rewrite (Hc _ _ _ E). repeat split; [|lia].
  exists []. by rewrite app_nil_r.
Qed.

Lemma keeps_state_ret {A} (a : A) : keeps_state (ret a : M St A).
Proof. apply keeps_state_same. intros w r w' E. by injection E as _ <-. Qed.

Lemma keeps_state_lift {A} (r : result A) : keeps_state (lift r : M St A).
Proof. apply keeps_state_same. intros w r' w' E. by injection E as _ <-. Qed.

Lemma keeps_state_emit (ev : event St) : keeps_state (emit ev).
Proof. apply keeps_state_same. intros w r w' E. by injection E as _ <-. Qed.

Lemma keeps_state_print s : keeps_state (print s : M St unit).
Proof.
  intros w r w' E. injection E as _ <-. cbn. repeat split; [by eexists|lia].
Qed.

Lemma keeps_state_now : keeps_state (now : M St string).
Proof.
  intros w r w' E. injection E as _ <-. cbn. repeat split; [|lia].
  exists []. by rewrite app_nil_r.
Qed.

Lemma keeps_state_bind {A B} (c : M St A) (k : A -> M St B) :
  keeps_state c -> (forall a, keeps_state (k a)) -> keeps_state (bind c k).
Proof.
  intros Hc Hk w r w' E. unfold bind in E.
  destruct (c w) as [[a|e] w1] eqn:E1.
  - destruct (Hc _ _ _ E1) as (X1 & (l1 & O1) & C1).
    destruct (Hk a _ _ _ E) as (X2 & (l2 & O2) & C2).
    repeat split; [congruence| |lia].
    exists (l1 ++ l2)%list. by rewrite O2, O1, app_assoc.
  - injection E as _ <-. by eapply Hc.
Qed.

Lemma keeps_state_retry_loop (inner_send : M St pyval) max_retries todo attempt :
  keeps_state inner_send -> keeps_state (retry_loop inner_send max_retries todo attempt).
Proof.
  intros Hin. revert attempt. induction todo as [|todo IH]; intros attempt.
  - apply keeps_state_ret.
  - assert (Hbody : keeps_state
      (bind (print ("   🔄 Intento " ++ py_str (PInt (attempt + 1)) ++ "/"
                    ++ py_str (PInt max_retries)))
         (fun _ w1 =>
            match inner_send w1 with
            | (Ok r, w2) => (Ok r, w2)
            | (Raise e, w2) =>
                if (attempt =? max_retries - 1)%Z then (Raise e, w2)
                else bind (print ("   ⚠️ Error intento " ++ py_str (PInt (attempt + 1))
                                  ++ ": " ++ exn_str e))
                       (fun _ => retry_loop inner_send max_retries todo (attempt + 1)%Z) w2
            end))).
    { apply keeps_state_bind; [apply keeps_state_print|intros _].
      intros w r w' E.
      destruct (inner_send w) as [[a|e] w2] eqn:E1.
      - injection E as <- <-. by eapply Hin.
      - destruct (attempt =? max_retries - 1)%Z.
        + injection E as <- <-. by eapply Hin.
        + destruct (Hin _ _ _ E1) as (X1 & (l1 & O1) & C1).
          assert (Hk : keeps_state
            (bind (print ("   ⚠️ Error intento " ++ py_str (PInt (attempt + 1))
                          ++ ": " ++ exn_str e))
               (fun _ => retry_loop inner_send max_retries todo (attempt + 1)%Z))).
          { apply keeps_state_bind; [apply keeps_state_print|intros _; apply IH]. }
          destruct (Hk _ _ _ E) as (X2 & (l2 & O2) & C2).
          repeat split; [congruence| |lia].
          exists (l1 ++ l2)%list. by rewrite O2, O1, app_assoc. }
    intros w r w' E. apply (Hbody w r w'). rewrite <- E.
    cbn [retry_loop]. unfold bind at 1. by rewrite print_prints.
Qed.

Lemma keeps_state_composite_loop (send_one : notifier St -> M St pyval) ms acc :
  Forall (fun m => keeps_state (send_one m)) ms ->
  keeps_state (composite_loop send_one ms acc).
Proof.
  intros Hms. revert acc. induction Hms as [|m ms Hm _ IH]; intros acc; cbn [composite_loop].
  - apply keeps_state_ret.
  - apply keeps_state_bind; [exact Hm|]. intros r. apply IH.
Qed.

Lemma builtin_keeps_state n customer order_id total :
  builtin n = true -> keeps_state (send n customer order_id total).
Proof.
  induction n as [| | |n IH|n k IH|n IH|name ms IH|ntype f] using notifier_members_ind;
    intros Hb; cbn [send]; (apply keeps_state_bind; [apply keeps_state_emit|intros _]).
  - unfold email_send.
    repeat first [apply keeps_state_bind; [|intros ?]
                 |apply keeps_state_lift|apply keeps_state_print
                 |apply keeps_state_now|apply keeps_state_ret].
  - unfold sms_send.
    repeat first [apply keeps_state_bind; [|intros ?]
                 |apply keeps_state_lift|apply keeps_state_print
                 |apply keeps_state_now|apply keeps_state_ret].
  - unfold push_send.
    repeat first [apply keeps_state_bind; [|intros ?]
                 |apply keeps_state_lift|apply keeps_state_print
                 |apply keeps_state_now|apply keeps_state_ret].
  - by apply IH.
  - apply keeps_state_retry_loop. by apply IH.
  - apply keeps_state_bind; [apply keeps_state_print|intros _].
    apply keeps_state_bind; [by apply IH|intros r].
    apply keeps_state_bind; [apply keeps_state_print|intros _]. apply keeps_state_ret.
  - apply keeps_state_bind; [apply keeps_state_print|intros _].
    apply keeps_state_bind.
    + apply keeps_state_composite_loop.
      cbn [builtin] in Hb. rewrite forallb_forall in Hb.
      rewrite Forall_forall in IH |- *. intros m Hm. apply IH; [done|].
      apply Hb. by apply list_elem_of_In.
    + intros rs. apply keeps_state_bind; [apply keeps_state_now|intros ts].
      apply keeps_state_ret.
  - discriminate.
Qed.

(** X11: the send of a notifier made of the program's classes
    (primitives, decorators, composites, at any depth), whether it returns
    or raises, leaves the state of every user-defined object untouched,
    keeps everything printed before and only prints after it, and never
    sets the clock back. *)
Theorem builtin_send_frame n customer order_id total w r w' :
  builtin n = true ->
  send n customer order_id total w = (r, w') ->
  ext (w_env w') = ext (w_env w) /\
  (exists ls, stdout (w_env w') = (stdout (w_env w) ++ ls)%list) /\
  clock (w_env w) <= clock (w_env w').
Proof. intros Hb. by apply builtin_keeps_state. Qed.

(** ** The type of a result *)

Lemma returns_type_bind {A} ty (c : M St A) (k : A -> M St pyval) :
  (forall a, returns_type ty (k a)) -> returns_type ty (bind c k).
Proof.
  intros Hk w r w' E. unfold bind in E.
  destruct (c w) as [[a|e] w1]; [by eapply Hk|discriminate].
Qed.

Lemma returns_type_retry_loop ty (inner_send : M St pyval) max_retries todo attempt :
  returns_type ty inner_send ->
  (Z.of_nat todo + attempt = max_retries)%Z ->
  (0 < todo)%nat ->
  returns_type ty (retry_loop inner_send max_retries todo attempt).
Proof.
  intros Hin. revert attempt. induction todo as [|todo IH]; intros attempt Hsum Hpos; [lia|].
  intros w r w' E. cbn [retry_loop] in E. rewrite print_prints in E.
  destruct (inner_send _) as [[a|e] w1] eqn:E1.
  - injection E as <- <-. by eapply Hin.
  - destruct (attempt =? max_retries - 1)%Z eqn:Hlast; [discriminate|].
    apply Z.eqb_neq in Hlast.
    unfold bind in E. rewrite print_prints in E.
    eapply (IH (attempt + 1)%Z); [lia|lia|exact E].
Qed.

Lemma decorated_primitive_type n customer order_id total :
  decorated_primitive n = true ->
  returns_type (get_notification_type n) (send n customer order_id total).
Proof.
  induction n as [| | |n IH|n k IH|n IH|name ms IH|ntype f] using notifier_members_ind;
    intros Hd; cbn [send get_notification_type]; try discriminate;
    (apply returns_type_bind; intros _).
  - unfold email_send. repeat (apply returns_type_bind; intros ?).
    intros w r w' E. injection E as <- _. by eexists.
  - unfold sms_send. repeat (apply returns_type_bind; intros ?).
    intros w r w' E. injection E as <- _. by eexists.
  - unfold push_send. repeat (apply returns_type_bind; intros ?).
    intros w r w' E. injection E as <- _. by eexists.
  - by apply IH.
  - cbn [decorated_primitive] in Hd. apply andb_prop in Hd as [Hk Hd].
    apply Z.ltb_lt in Hk.
    apply returns_type_retry_loop; [by apply IH|lia|lia].
  - apply returns_type_bind; intros _.
    intros w r w' E. unfold bind in E.
    destruct (send n customer order_id total w) as [[a|e] w1] eqn:E1; [|discriminate].
    rewrite print_prints in E. injection E as <- _. by eapply IH.
Qed.

(** X12: a result returned by a primitive notifier under any decorators
    (retries with at least one attempt) carries as 'type' the notifier's
    own [get_notification_type]; the result of a composite carries
    'composite', whereas its [get_notification_type] is 'composite_'
    followed by the group name. *)
Theorem result_type_of_notifier n customer order_id total w r w' :
  send n customer order_id total w = (Ok r, w') ->
  (decorated_primitive n = true ->
   exists d, r = PDict d /\ dict_get d "type" = Some (PStr (get_notification_type n))) /\
  (forall name ms, n = CompositeNotifier name ms ->
   (exists d, r = PDict d /\ dict_get d "type" = Some (PStr "composite")) /\
   get_notification_type n = "composite_" ++ name).
Proof.
  intros Hs. split.
  - intros Hd. by eapply decorated_primitive_type.
  - intros name ms ->. split; [|reflexivity].
    rewrite send_composite in Hs.
    destruct (composite_loop _ _ _ _) as [[rs|e] w1]; [|discriminate].
    injection Hs as <- _. by eexists.
Qed.

(** ** Attaching and detaching listeners *)


Lemma remove_first_some id obs l :
  remove_first id obs = Some l ->
  exists pre o post,
    obs = (pre ++ o :: post)%list /\ obs_id o = id /\
    ~ In id (map obs_id pre) /\ l = (pre ++ post)%list.
Proof.
  revert l. induction obs as [|o obs IH]; intros l H; cbn [remove_first] in H; [discriminate|].
  destruct (Nat.eqb_spec (obs_id o) id) as [E|E].
  - injection H as <-. exists [], o, obs. cbn. intuition.
  - destruct (remove_first id obs) as [l'|]; [|discriminate].
    injection H as <-. destruct (IH l' eq_refl) as (pre & o' & post & -> & Ho & Hpre & ->).
    exists (o :: pre), o', post. repeat split; [done|].
    cbn [map In]. intros [Hx|Hx]; [done|by apply Hpre].
Qed.



(** ** Who is notified *)

Lemma notify_observers_ids obs data w r w' :
  _notify_observers obs data w = (r, w') ->
  exists tr, trace w' = (trace w ++ tr)%list /\
             forall id, In id (updated_ids tr) -> In id (map obs_id obs).
Proof.
  revert w. induction obs as [|o obs IH]; intros w H; cbn [_notify_observers] in H.
  - injection H as _ <-. exists []. split; [by rewrite app_nil_r|by intros id []].
  - unfold bind, emit, run_env in H. cbn [w_env trace] in H.
    destruct (obs_update o data (w_env w)) as [[u|e] e'].
    + destruct (IH _ H) as (tr & T & Hids). cbn [trace] in T.
      exists (EvUpdate (obs_id o) data :: tr). split; [by rewrite T, <- app_assoc|].
      intros id [<-|Hin]; [by left|]. right. by apply Hids.
    + injection H as _ <-. exists [EvUpdate (obs_id o) data]. split; [done|].
      intros id [<-|[]]. by left.
Qed.

Lemma updated_ids_app (tr1 tr2 : list (event St)) :
  updated_ids (tr1 ++ tr2)%list = (updated_ids tr1 ++ updated_ids tr2)%list.
Proof. unfold updated_ids. by rewrite updates_of_app, map_app. Qed.

Lemma channel_body_ids sys customer order_id total k w r sys1 w1 :
  channel_body sys customer order_id total k w = (r, sys1, w1) ->
  exists tr, trace w1 = (trace w ++ tr)%list /\
             forall id, In id (updated_ids tr) -> In id (map obs_id (observers sys)).
Proof.
  intros H. unfold channel_body in H.
  destruct (get_notifier (factory sys) k) as [n|e].
  2:{ injection H as _ _ <-. exists []. split; [by rewrite app_nil_r|by intros id []]. }
  destruct (send n customer order_id total w) as [[data|e] w2] eqn:Es;
    destruct (no_update_send _ _ _ _ _ _ _ Es) as (tr1 & T1 & U1).
  - cbn [log observers] in H.
    destruct (_notify_observers (observers sys) data w2) as [[u|e] w3] eqn:En;
      destruct (notify_observers_ids _ _ _ _ _ En) as (tr2 & T2 & Hids);
      injection H as _ _ <-; exists (tr1 ++ tr2)%list;
      (split; [by rewrite T2, T1, app_assoc|]);
      intros id; rewrite updated_ids_app; unfold updated_ids at 1; rewrite U1;
      cbn [map app]; apply Hids.
  - injection H as _ _ <-. exists tr1. split; [done|].
    intros id. unfold updated_ids. rewrite U1. by intros [].
Qed.

Lemma dispatch_loop_ids sys customer order_id total kinds w r sys1 w1 :
  dispatch_loop sys customer order_id total kinds w = (r, sys1, w1) ->
  exists tr, trace w1 = (trace w ++ tr)%list /\
             forall id, In id (updated_ids tr) -> In id (map obs_id (observers sys)).
Proof.
  revert sys w. induction kinds as [|k kinds IH]; intros sys w H; cbn [dispatch_loop] in H.
  - injection H as _ _ <-. exists []. split; [by rewrite app_nil_r|by intros id []].
  - destruct (channel_body sys customer order_id total k w) as [[o sys2] w2] eqn:E.
    destruct (channel_body_ids _ _ _ _ _ _ _ _ _ E) as (tr2 & T2 & Hids2).
    assert (Ho2 : observers sys2 = observers sys).
    { destruct (channel_body_system _ _ _ _ _ _ _ _ _ E) as [->|[d ->]]; done. }
    assert (Hgo : forall w3, trace w3 = trace w2 ->
              dispatch_loop sys2 customer order_id total kinds w3 = (r, sys1, w1) ->
              exists tr, trace w1 = (trace w ++ tr)%list /\
                forall id, In id (updated_ids tr) -> In id (map obs_id (observers sys))).
    { intros w3 T3 H3. destruct (IH _ _ H3) as (tr3 & T & Hids3).
      exists (tr2 ++ tr3)%list. split; [by rewrite T, T3, T2, app_assoc|].
      intros id. rewrite updated_ids_app, in_app_iff. intros [Hin|Hin]; [by apply Hids2|].
      rewrite <- Ho2. by apply Hids3. }
    destruct o as [u|e]; [by eapply Hgo|].
    destruct e; try (injection H as _ _ <-; by exists tr2).
    rewrite print_prints in H. eapply Hgo; [|exact H]. done.
Qed.

(** X14: whatever happens in a run of [process_order], listeners
    raising included, only listeners of the system are ever called; so a
    listener that was attached once and has been detached is not called
    again. *)
Theorem only_attached_listeners_updated sys order_data kinds w r sys1 w1 :
  process_order sys order_data kinds w = (r, sys1, w1) ->
  exists tr,
    trace w1 = (trace w ++ tr)%list /\
    (forall id, In id (updated_ids tr) -> In id (map obs_id (observers sys))) /\
    (forall (o : observer St) sys0,
       detach_observer o sys0 = Ok sys ->
       NoDup (map obs_id (observers sys0)) ->
       ~ In (obs_id o) (updated_ids tr)).
Proof.
  intros Hrun.
  assert (Hids : exists tr, trace w1 = (trace w ++ tr)%list /\
            forall id, In id (updated_ids tr) -> In id (map obs_id (observers sys))).
  { destruct (process_order_cases sys order_data kinds w) as [ls [[r' E]|(c & o & t & E)]];
      rewrite E in Hrun.
    - injection Hrun as _ _ <-. exists []. split; [by rewrite app_nil_r|by intros id []].
    - destruct (dispatch_loop_ids _ _ _ _ _ _ _ _ _ Hrun) as (tr & T & H'). by exists tr. }
  destruct Hids as (tr & T & Hids). exists tr. split; [exact T|]. split; [exact Hids|].
  intros o sys0 Hd Hnd Hin. apply Hids in Hin.
  unfold detach_observer in Hd.
  destruct (remove_first (obs_id o) (observers sys0)) as [l|] eqn:E; [|discriminate].
  injection Hd as <-. cbn [observers] in Hin.
  destruct (remove_first_some _ _ _ E) as (pre & o' & post & H1 & H2 & H3 & ->).
  rewrite H1, map_app in Hnd. cbn [map] in Hnd.
  apply NoDup_app in Hnd as (_ & Hdisj & Hpost). apply NoDup_cons in Hpost as [Hnot _].
  rewrite map_app, in_app_iff in Hin. destruct Hin as [Hin|Hin]; [done|].
  apply Hnot. rewrite H2. by apply list_elem_of_In.
Qed.

(** ** Registering a notifier *)

Lemma channel_body_register sys k n customer order_id total k' w :
  k' <> k ->
  channel_body (system_register k n sys) customer order_id total k' w =
  let '(r, sys', w') := channel_body sys customer order_id total k' w in
  (r, system_register k n sys', w').
Proof.
  intros Hne. unfold channel_body, get_notifier, system_register, register_notifier.
  cbn [factory observers]. rewrite lookup_insert_ne by done.
  destruct (factory sys !! k') as [n'|]; [|reflexivity]. cbn [notifier_truthy].
  destruct (send n' customer order_id total w) as [[data|e] w1]; [|reflexivity].
  cbn [log factory observers notifications_sent].
  by destruct (_notify_observers (observers sys) data w1) as [[u|e] w2].
Qed.

Lemma dispatch_loop_register sys k n customer order_id total kinds w :
  ~ In k kinds ->
  dispatch_loop (system_register k n sys) customer order_id total kinds w =
  let '(r, sys', w') := dispatch_loop sys customer order_id total kinds w in
  (r, system_register k n sys', w').
Proof.
  revert sys w. induction kinds as [|k' kinds IH]; intros sys w Hk; [reflexivity|].
  cbn [In] in Hk. cbn [dispatch_loop].
  rewrite channel_body_register by (intros ->; tauto).
  destruct (channel_body sys customer order_id total k' w) as [[[u|e] sys2] w2].
  - apply IH. tauto.
  - destruct e; try reflexivity. rewrite print_prints. apply IH. tauto.
Qed.

(** X15: [register_notifier] replaces what the type resolved to before,
    a default notifier included, and changes the resolution of no other
    type; and registering a type that an order's request does not name
    changes nothing of what [process_order] does for it: same outcome,
    same history, same world. *)
Theorem register_notifier_frame sys k n :
  (forall n0, get_notifier (factory (system_register k n (system_register k n0 sys))) k
              = Ok n) /\
  (forall k', k' <> k ->
     get_notifier (factory (system_register k n sys)) k' = get_notifier (factory sys) k') /\
  (forall order_data kinds w,
     ~ In k kinds ->
     process_order (system_register k n sys) order_data kinds w =
     let '(r, sys', w') := process_order sys order_data kinds w in
     (r, system_register k n sys', w')).
Proof.
  split; [|split].
  - intros n0. unfold get_notifier, system_register, register_notifier. cbn [factory].
    by rewrite lookup_insert_eq.
  - intros k' Hne. unfold get_notifier, system_register, register_notifier. cbn [factory].
    by rewrite lookup_insert_ne.
  - intros order_data kinds w Hk. unfold process_order.
    destruct (subscript (PDict order_data) "order_id") as [oid|e]; [|reflexivity].
    destruct (subscript (PDict order_data) "customer") as [c|e]; [|reflexivity].
    destruct (subscript (PDict order_data) "total") as [t|e]; [|reflexivity].
    rewrite !print_prints.
    destruct (subscript c "name") as [name|e]; [|reflexivity].
    rewrite !print_prints.
    destruct (validate _ _ _) as [[[|]|e] w7]; [|by rewrite print_prints|reflexivity].
    by apply dispatch_loop_register.
Qed.

(** ** What a run leaves of the system *)



(** ** The configuration singleton *)

Lemma config_setattr_class self name v (c : config_class) :
  cfg_instance (config_setattr self name v c) = cfg_instance c /\
  cfg_initialized (config_setattr self name v c) = cfg_initialized c.
Proof. done. Qed.

(** X17: [NotificationConfig()] always returns the one instance: called
    again, in whatever state the first call left, it returns the same
    object and changes nothing, also after an attribute of the instance was
    set in between, so a changed setting is never reset; and the first
    instance ever made holds the four default settings. *)
Theorem notification_config_singleton (c : config_class) :
  let self := (NotificationConfig c).1 in
  let c1 := (NotificationConfig c).2 in
  cfg_instance c1 = Some self /\
  NotificationConfig c1 = (self, c1) /\
  (forall name v,
     NotificationConfig (config_setattr self name v c1) =
     (self, config_setattr self name v c1)) /\
  (c = config_class_initial ->
   get_config self c1 =
     Ok [("max_retries", PInt 3); ("timeout", PInt 30);
         ("enable_logging", PBool true); ("batch_size", PInt 10)] /\
   forall v,
     get_config self (NotificationConfig (config_setattr self "max_retries" v c1)).2 =
     Ok [("max_retries", v); ("timeout", PInt 30);
         ("enable_logging", PBool true); ("batch_size", PInt 10)]).
Proof.
  cbv zeta.
  assert (H1 : cfg_instance (NotificationConfig c).2 = Some (NotificationConfig c).1 /\
               cfg_initialized (NotificationConfig c).2 = true).
  { unfold NotificationConfig, config_new, config_init.
    destruct (cfg_instance c) as [self|] eqn:Ei; cbn [fst snd cfg_initialized];
      destruct (cfg_initialized c) eqn:Eini; cbn [negb fst snd]; by rewrite ?Ei, ?Eini. }
  destruct H1 as [Hi Hini].
  assert (H2 : forall c', cfg_instance c' = Some (NotificationConfig c).1 ->
                 cfg_initialized c' = true ->
                 NotificationConfig c' = ((NotificationConfig c).1, c')).
  { intros c' Hi' Hini'. unfold NotificationConfig at 1, config_new, config_init.
    rewrite Hi'. by rewrite Hini'. }
  split; [exact Hi|]. split; [by apply H2|]. split.
  - intros name v. by apply H2.
  - intros ->. split; [vm_compute; reflexivity|]. intros v.
    vm_compute. reflexivity.
Qed.

(** ** Decorators change the console only *)

Lemma clock_determined_const {A} (c : M St A) (r : result A) :
  (forall w, (c w).1 = r /\ clock (w_env (c w).2) = clock (w_env w)) ->
  clock_determined c.
Proof.
  intros Hc w1 w2 Hw. destruct (Hc w1) as [-> ->], (Hc w2) as [-> ->]. done.
Qed.

Lemma clock_determined_ret {A} (a : A) : clock_determined (ret a : M St A).
Proof. by apply (clock_determined_const _ (Ok a)). Qed.

Lemma clock_determined_lift {A} (r : result A) : clock_determined (lift r : M St A).
Proof. by apply (clock_determined_const _ r). Qed.

Lemma clock_determined_print s : clock_determined (print s : M St unit).
Proof. by apply (clock_determined_const _ (Ok tt)). Qed.

Lemma clock_determined_emit (ev : event St) : clock_determined (emit ev).
Proof. by apply (clock_determined_const _ (Ok tt)). Qed.

Lemma clock_determined_now : clock_determined (now : M St string).
Proof. intros w1 w2 Hw. cbn. by rewrite Hw. Qed.

Lemma clock_determined_bind {A B} (c : M St A) (k : A -> M St B) :
  clock_determined c -> (forall a, clock_determined (k a)) -> clock_determined (bind c k).
Proof.
  intros Hc Hk w1 w2 Hw. unfold bind.
  destruct (Hc w1 w2 Hw) as [Hr Hcl].
  destruct (c w1) as [[a1|e1] v1], (c w2) as [[a2|e2] v2]; cbn [fst snd] in Hr, Hcl;
    try discriminate.
  - injection Hr as ->. by apply Hk.
  - by injection Hr as ->.
Qed.

Lemma clock_determined_retry_loop (inner_send : M St pyval) max_retries todo attempt :
  clock_determined inner_send ->
  clock_determined (retry_loop inner_send max_retries todo attempt).
Proof.
  intros Hin. revert attempt. induction todo as [|todo IH]; intros attempt.
  - apply clock_determined_ret.
  - intros w1 w2 Hw. cbn [retry_loop]. rewrite !print_prints.
    set (line := "   🔄 Intento " ++ py_str (PInt (attempt + 1)) ++ "/"
                 ++ py_str (PInt max_retries)).
    destruct (Hin (prints [line] w1) (prints [line] w2) Hw) as [Hr Hcl].
    destruct (inner_send (prints [line] w1)) as [[a1|e1] v1],
             (inner_send (prints [line] w2)) as [[a2|e2] v2];
      cbn [fst snd] in Hr, Hcl; try discriminate.
    + by injection Hr as ->.
    + injection Hr as ->. destruct (attempt =? max_retries - 1)%Z; [done|].
      unfold bind. rewrite !print_prints. by apply IH.
Qed.

Lemma clock_determined_composite_loop (send_one : notifier St -> M St pyval) ms acc :
  Forall (fun m => clock_determined (send_one m)) ms ->
  clock_determined (composite_loop send_one ms acc).
Proof.
  intros Hms. revert acc. induction Hms as [|m ms Hm _ IH]; intros acc; cbn [composite_loop].
  - apply clock_determined_ret.
  - apply clock_determined_bind; [exact Hm|]. intros r. apply IH.
Qed.

Lemma builtin_clock_determined n customer order_id total :
  builtin n = true -> clock_determined (send n customer order_id total).
Proof.
  induction n as [| | |n IH|n k IH|n IH|name ms IH|ntype f] using notifier_members_ind;
    intros Hb; cbn [send];
    (apply clock_determined_bind; [apply clock_determined_emit|intros _]).
  - unfold email_send.
    repeat first [apply clock_determined_bind; [|intros ?]
                 |apply clock_determined_lift|apply clock_determined_print
                 |apply clock_determined_now|apply clock_determined_ret].
  - unfold sms_send.
    repeat first [apply clock_determined_bind; [|intros ?]
                 |apply clock_determined_lift|apply clock_determined_print
                 |apply clock_determined_now|apply clock_determined_ret].
  - unfold push_send.
    repeat first [apply clock_determined_bind; [|intros ?]
                 |apply clock_determined_lift|apply clock_determined_print
                 |apply clock_determined_now|apply clock_determined_ret].
  - by apply IH.
  - apply clock_determined_retry_loop. by apply IH.
  - apply clock_determined_bind; [apply clock_determined_print|intros _].
    apply clock_determined_bind; [by apply IH|intros r].
    apply clock_determined_bind; [apply clock_determined_print|intros _].
    apply clock_determined_ret.
  - apply clock_determined_bind; [apply clock_determined_print|intros _].
    apply clock_determined_bind.
    + apply clock_determined_composite_loop.
      cbn [builtin] in Hb. rewrite forallb_forall in Hb.
      rewrite Forall_forall in IH |- *. intros m Hm. apply IH; [done|].
      apply Hb. by apply list_elem_of_In.
    + intros rs. apply clock_determined_bind; [apply clock_determined_now|intros ts].
      apply clock_determined_ret.
  - discriminate.
Qed.

Lemma send_logging n customer order_id total w :
  send (LoggingDecorator n) customer order_id total w =
  match send n customer order_id total
          (prints ["   📝 [LOG] Iniciando " ++ get_notification_type n]
             (entered (LoggingDecorator n) w)) with
  | (Ok r, w1) => (Ok r, prints ["   📝 [LOG] Completado"] w1)
  | (Raise e, w1) => (Raise e, w1)
  end.
Proof.
  cbn [send]. unfold bind at 1 2 3. unfold emit at 1. rewrite print_prints.
  fold (entered (LoggingDecorator n) w).
  destruct (send n customer order_id total _) as [[r|e] w1]; [|reflexivity].
  unfold bind. by rewrite print_prints.
Qed.

Lemma send_plain_decorator n customer order_id total w :
  send (NotifierDecorator n) customer order_id total w =
  send n customer order_id total (entered (NotifierDecorator n) w).
Proof. reflexivity. Qed.

(** X19: what a notifier made of the program's classes returns or
    raises, and how far it moves the clock, depends on its arguments and on
    the clock only, not on what was printed or called before; so wrapping
    it in a [LoggingDecorator] or a plain [NotifierDecorator] changes
    neither its outcome (the result dict, timestamps included, or the
    exception) nor its type name: only the console differs. *)
Theorem decorators_change_console_only n customer order_id total w :
  builtin n = true ->
  (forall w2, clock (w_env w2) = clock (w_env w) ->
     (send n customer order_id total w2).1 = (send n customer order_id total w).1) /\
  (send (LoggingDecorator n) customer order_id total w).1 =
    (send n customer order_id total w).1 /\
  (send (NotifierDecorator n) customer order_id total w).1 =
    (send n customer order_id total w).1 /\
  clock (w_env (send (LoggingDecorator n) customer order_id total w).2) =
    clock (w_env (send n customer order_id total w).2) /\
  get_notification_type (LoggingDecorator n) = get_notification_type n /\
  get_notification_type (NotifierDecorator n) = get_notification_type n.
Proof.
  intros Hb.
  pose proof (builtin_clock_determined n customer order_id total Hb) as Hn.
  split; [intros w2 Hw; by apply Hn|].
  rewrite !send_logging, send_plain_decorator.
  set (w2 := prints _ _).
  destruct (Hn w2 w) as [Hr Hcl]; [reflexivity|].
  destruct (Hn (entered (NotifierDecorator n) w) w) as [Hr' _]; [reflexivity|].
  destruct (send n customer order_id total w2) as [[r|e] w3]; cbn [fst snd] in *; done.
Qed.

End Properties.

(** * The properties in the shop *)

Module ShopRuns.

Import Shop.

(** ** Runs on which a stated property fails *)


(** C2 as stated fails here: a transport error of the first requested
    type, raised again by the retry decorator once its two attempts are
    used up, leaves [process_order]: the email notifier requested after it
    is never called and the history stays empty. *)
Lemma transport_error_stops_dispatch :
  valid_order order_pedro /\
  factory shop !! "down" = Some (RetryDecorator down 2) /\
  factory shop !! "email" = Some EmailNotifier /\
  (run shop order_pedro ["down"; "email"]).1.1 =
    Raise (OtherError "ConnectionError" "sin conexion") /\
  trace (run shop order_pedro ["down"; "email"]).2 =
    [EvSend (RetryDecorator down 2); EvSend down; EvSend down] /\
  get_notification_history (run shop order_pedro ["down"; "email"]).1.2 = [].
Proof. repeat split; vm_compute; reflexivity. Qed.

(** C7 as stated fails here: a composite of the SMS and the email
    notifier, sent for a customer with no phone: the SMS member raises, the
    composite's send raises with it, and the email member is never
    called. *)
Lemma composite_member_raises :
  (send (CompositeNotifier "g" [SMSNotifier; EmailNotifier])
     pedro id_pedro (PInt 10) w0).1 = Raise (KeyError "phone") /\
  trace (send (CompositeNotifier "g" [SMSNotifier; EmailNotifier])
           pedro id_pedro (PInt 10) w0).2 =
    [EvSend (CompositeNotifier "g" [SMSNotifier; EmailNotifier]); EvSend SMSNotifier].
Proof. split; vm_compute; reflexivity. Qed.

(** ** The theorems at concrete inputs *)

(** The audit listener returns on every dict. *)
Lemma audit_returns : Forall listener_returns (observers shop).
Proof.
  constructor; [|constructor]. intros d e. eexists. reflexivity.
Defined.


(** C2 in the shop: the [ValueError] of the strict notifier is reported
    and the email is sent; the [ConnectionError] of the notifier that is
    down ends the run. *)
Lemma value_error_isolated_shop :
  process_order shop order_pedro ["strict"; "email"] w0 =
    dispatch_loop shop pedro id_pedro (PInt 10) ["email"]
      (prints ["⚠️ Error: " ++ "pedido rechazado" ++ nl]
         (send strict pedro id_pedro (PInt 10)
            (run shop order_pedro []).2).2) /\
  process_order shop order_pedro ["down"; "email"] w0 =
    (Raise (OtherError "ConnectionError" "sin conexion"), shop,
     (send (RetryDecorator down 2) pedro id_pedro (PInt 10)
        (run shop order_pedro []).2).2).
Proof.
  split.
  - refine (proj1 (value_error_isolated shop order_pedro id_pedro pedro (PInt 10)
                     [] "strict" ["email"] w0 shop
                     (run shop order_pedro []).2 strict _ _ _ _ _ _) _ _ _);
      try reflexivity.
    repeat split; reflexivity.
  - refine (proj2 (value_error_isolated shop order_pedro id_pedro pedro (PInt 10)
                     [] "down" ["email"] w0 shop
                     (run shop order_pedro []).2 (RetryDecorator down 2) _ _ _ _ _ _)
              _ _ _ _);
      try reflexivity.
    + repeat split; reflexivity.
    + intros m. discriminate.
Defined.

(** C3 on the rejected order of the demonstration. *)
Lemma empty_identifier_rejected_shop :
  validate _build_validator_chain order_no_id w0 =
    (Ok false, prints [msg_order_id_missing] w0) /\
  exists r sys' w',
    process_order shop order_no_id ["email"] w0 = (r, sys', w') /\
    get_notification_history sys' = get_notification_history shop /\
    trace w' = trace w0 /\
    ext (w_env w') = ext (w_env w0).
Proof.
  destruct (empty_identifier_rejected (St:=shop_state) order_no_id eq_refl)
    as [Hv Hp].
  split; [apply Hv|apply Hp].
Defined.

(** C4 on the default registry and on a registration. *)
Lemma get_notifier_resolves_shop :
  get_notifier (@default_notifiers shop_state) "fax" =
    Raise (ValueError "Tipo no soportado: fax") /\
  get_notifier (@default_notifiers shop_state) "email" = Ok EmailNotifier /\
  get_notifier (register_notifier "premium" premium default_notifiers) "premium" =
    Ok premium.
Proof.
  destruct (get_notifier_resolves (St:=shop_state)) as (Hnone & Hsome & Hreg).
  split; [|split]; [by apply Hnone|by apply Hsome|apply Hreg].
Defined.

(** C5 in the shop: an unknown type between the email and the SMS. *)
Lemma unregistered_kind_skipped_shop :
  process_order shop order_ana ["email"; "fax"; "sms"] w0 =
    dispatch_loop (run shop order_ana ["email"]).1.2
      ana id_ana (PInt 150) ["sms"]
      (prints [unsupported_line "fax"] (run shop order_ana ["email"]).2) /\
  process_order shop order_ana ["email"; "fax"] w0 =
    (Ok tt, (run shop order_ana ["email"]).1.2,
     prints [unsupported_line "fax"] (run shop order_ana ["email"]).2).
Proof.
  apply (unregistered_kind_skipped shop order_ana
           id_ana ana (PInt 150) ["email"] "fax" ["sms"] w0);
    try reflexivity.
  repeat split; reflexivity.
Defined.

(** C6 on four orders, one per outcome of the chain. *)
Lemma validate_first_failure_shop :
  validate _build_validator_chain order_no_id w0 =
    (Ok false, prints [msg_order_id_missing] w0) /\
  validate _build_validator_chain order_no_customer_name w0 =
    (Ok false, prints [msg_order_id_valid; msg_customer_incomplete] w0) /\
  validate _build_validator_chain order_free w0 =
    (Ok false, prints [msg_order_id_valid; msg_customer_valid; msg_total_invalid] w0) /\
  validate _build_validator_chain order_pedro w0 =
    (Ok true, prints [msg_order_id_valid; msg_customer_valid; msg_total_valid] w0).
Proof.
  split; [|split; [|split]].
  - by apply (validate_first_failure order_no_id w0).
  - by apply (validate_first_failure order_no_customer_name w0).
  - by apply (validate_first_failure order_free w0).
  - apply (validate_first_failure order_pedro w0). repeat split; reflexivity.
Defined.

(** C7 on the premium group of the demonstration. *)
Lemma composite_aggregates_shop :
  exists rs w1,
    members_sent ana id_ana (PInt 150)
      [EmailNotifier; SMSNotifier; PushNotifier]
      (prints [group_line "Premium"] (entered premium w0)) rs w1 /\
    length rs = 3 /\
    send premium ana id_ana (PInt 150) w0 =
      (Ok (composite_result "Premium" rs (iso_now (clock (w_env w1)))), tick w1).
Proof.
  assert (Hs : exists rs w1,
    members_sent ana id_ana (PInt 150)
      [EmailNotifier; SMSNotifier; PushNotifier]
      (prints [group_line "Premium"] (entered premium w0)) rs w1 /\ length rs = 3).
  { eexists _, _. split.
    - eapply members_sent_cons; [lazy; reflexivity|].
      eapply members_sent_cons; [lazy; reflexivity|].
      eapply members_sent_cons; [lazy; reflexivity|].
      apply members_sent_nil.
    - reflexivity. }
  destruct Hs as (rs & w1 & Hm & Hl). exists rs, w1. repeat split; [exact Hm|exact Hl|].
  exact (proj1 (composite_aggregates "Premium"
                  [EmailNotifier; SMSNotifier; PushNotifier] ana id_ana (PInt 150) w0)
           rs w1 Hm).
Defined.

(** The unreliable notifier raises on its first two calls. *)
Lemma flaky_raises k :
  (k < 2)%nat ->
  raises_at flaky ana id_ana (PInt 150)
    (ShopState k []) (OtherError "ConnectionError" "sin conexion") (ShopState (S k) []).
Proof.
  intros Hk [[out c s] tr] Hw. cbn in Hw. subst s.
  assert (Hlt : (k <? 2)%nat = true) by (by apply Nat.ltb_lt).
  eexists. split.
  - unfold flaky. cbn [send]. unfold bind, emit, run_env, ret, flaky_send.
    cbn [w_env ext attempts trace]. rewrite Hlt. reflexivity.
  - reflexivity.
Defined.

(** C8 on the unreliable notifier. *)
Lemma retry_third_attempt_shop :
  (exists wa r wb,
     ext (w_env wa) = ShopState 2 [] /\
     send flaky ana id_ana (PInt 150) wa = (Ok r, wb) /\
     send (RetryDecorator flaky 3) ana id_ana (PInt 150) w0 = (Ok r, wb)) /\
  (exists w',
     send (RetryDecorator flaky 2) ana id_ana (PInt 150) w0 =
       (Raise (OtherError "ConnectionError" "sin conexion"), w') /\
     ext (w_env w') = ShopState 2 []).
Proof.
  apply (retry_third_attempt flaky ana id_ana (PInt 150)
           (ShopState 0 []) (OtherError "ConnectionError" "sin conexion") (ShopState 1 [])
           (OtherError "ConnectionError" "sin conexion") (ShopState 2 []) (ShopState 3 [])).
  - apply flaky_raises. lia.
  - apply flaky_raises. lia.
  - intros [[out c s] tr] Hw. cbn in Hw. subst s. eexists _, _. split; reflexivity.
  - reflexivity.
Defined.


(** C10 on an order with no total. *)
Lemma missing_key_raises_shop :
  exists key,
    In key ["order_id"; "customer"; "total"] /\
    dict_get order_no_total key = None /\
    process_order shop order_no_total ["email"] w0 =
      (Raise (KeyError key), shop, w0).
Proof.
  apply (missing_key_raises shop order_no_total ["email"] w0).
  right; right; reflexivity.
Defined.

(** ** The audit listener *)

Lemma audit_update_dict (d : pydict) (e : env shop_state) :
  exists e',
    audit_update (PDict d) e = (Ok tt, e') /\
    audit_log (ext e') = (audit_log (ext e) ++ [audit_entry (PDict d) (iso_now (clock e))])%list.
Proof. eexists. split; reflexivity. Qed.

Lemma notify_audit (d : pydict) (w : world shop_state) :
  exists w',
    _notify_observers [audit] (PDict d) w = (Ok tt, w') /\
    exists ts,
      audit_log (ext (w_env w')) = (audit_log (ext (w_env w)) ++ [audit_entry (PDict d) ts])%list.
Proof. eexists. split; [reflexivity|]. by eexists. Qed.

Lemma channel_body_audit (sys : system shop_state) customer order_id total k w r sys1 w1 :
  observers sys = [audit] ->
  (forall n, factory sys !! k = Some n -> builtin n = true) ->
  channel_body sys customer order_id total k w = (r, sys1, w1) ->
  exists rs entries,
    notifications_sent sys1 = (notifications_sent sys ++ rs)%list /\
    audit_log (ext (w_env w1)) = (audit_log (ext (w_env w)) ++ entries)%list /\
    map (type_and_recipient "notification_type" "recipient") entries =
    map (type_and_recipient "type" "to") rs.
Proof.
  intros Hobs Hreg H. unfold channel_body, get_notifier in H.
  destruct (factory sys !! k) as [n|] eqn:Ek.
  2:{ injection H as _ <- <-. exists [], []. by rewrite !app_nil_r. }
  cbn [notifier_truthy] in H.
  destruct (send n customer order_id total w) as [[data|e] w2] eqn:Es;
    destruct (builtin_keeps_state n customer order_id total (Hreg n eq_refl) _ _ _ Es)
      as (Hext & _).
  - destruct (send_returns_dict _ _ _ _ _ _ _ Es) as [d ->].
    cbn [log observers] in H. rewrite Hobs in H.
    destruct (notify_audit d w2) as (w3 & En & ts & Hlog). rewrite En in H.
    injection H as _ <- <-.
    exists [PDict d], [audit_entry (PDict d) ts]. repeat split.
    by rewrite Hlog, Hext.
  - injection H as _ <- <-. exists [], []. rewrite !app_nil_r. by rewrite Hext.
Qed.

(** X18: in a system whose only listener is the audit listener and whose
    requested notifiers are made of the program's classes, the audit log
    follows the history: whatever a run of [process_order] appends to the
    history, it appends as many entries to the audit log, in the same
    order, each naming the type and the recipient of its result. *)
Theorem audit_log_mirrors_history (sys : system shop_state) order_data kinds w r sys1 w1 :
  observers sys = [audit] ->
  (forall k n, In k kinds -> factory sys !! k = Some n -> builtin n = true) ->
  process_order sys order_data kinds w = (r, sys1, w1) ->
  exists rs entries,
    get_notification_history sys1 = (get_notification_history sys ++ rs)%list /\
    audit_log (ext (w_env w1)) = (audit_log (ext (w_env w)) ++ entries)%list /\
    map (type_and_recipient "notification_type" "recipient") entries =
    map (type_and_recipient "type" "to") rs.
Proof.
  intros Hobs Hreg Hrun.
  assert (Hloop : forall customer order_id total kinds' (sys0 : system shop_state) w0 r sys1 w1,
    observers sys0 = [audit] ->
    (forall k n, In k kinds' -> factory sys0 !! k = Some n -> builtin n = true) ->
    dispatch_loop sys0 customer order_id total kinds' w0 = (r, sys1, w1) ->
    exists rs entries,
      notifications_sent sys1 = (notifications_sent sys0 ++ rs)%list /\
      audit_log (ext (w_env w1)) = (audit_log (ext (w_env w0)) ++ entries)%list /\
      map (type_and_recipient "notification_type" "recipient") entries =
      map (type_and_recipient "type" "to") rs).
  { clear. intros customer order_id total kinds'.
    induction kinds' as [|k kinds' IH]; intros sys0 w0 r sys1 w1 Hobs Hreg H;
      cbn [dispatch_loop] in H.
    - injection H as _ <- <-. exists [], []. by rewrite !app_nil_r.
    - destruct (channel_body sys0 customer order_id total k w0) as [[o sys2] w2] eqn:E.
      destruct (channel_body_audit _ _ _ _ _ _ _ _ _ Hobs
                  (fun n => Hreg k n (or_introl eq_refl)) E) as (rs2 & en2 & Hh2 & Ha2 & Hm2).
      assert (Hsys2 : factory sys2 = factory sys0 /\ observers sys2 = observers sys0).
      { destruct (channel_body_system _ _ _ _ _ _ _ _ _ E) as [->|[d ->]]; done. }
      destruct Hsys2 as [Hf2 Ho2].
      assert (Hgo : forall w3, audit_log (ext (w_env w3)) = audit_log (ext (w_env w2)) ->
                dispatch_loop sys2 customer order_id total kinds' w3 = (r, sys1, w1) ->
                exists rs entries,
                  notifications_sent sys1 = (notifications_sent sys0 ++ rs)%list /\
                  audit_log (ext (w_env w1)) = (audit_log (ext (w_env w0)) ++ entries)%list /\
                  map (type_and_recipient "notification_type" "recipient") entries =
                  map (type_and_recipient "type" "to") rs).
      { intros w3 Hw3 H3.
        destruct (IH sys2 w3 r sys1 w1) as (rs3 & en3 & Hh3 & Ha3 & Hm3);
          [congruence|intros k' n' Hin; rewrite Hf2; apply Hreg; by right|exact H3|].
        exists (rs2 ++ rs3)%list, (en2 ++ en3)%list. repeat split.
        - by rewrite Hh3, Hh2, app_assoc.
        - by rewrite Ha3, Hw3, Ha2, app_assoc.
        - by rewrite !map_app, Hm2, Hm3. }
      destruct o as [u|e]; [by eapply Hgo|].
      destruct e; try (injection H as _ <- <-; by exists rs2, en2).
      rewrite print_prints in H. eapply Hgo; [|exact H]. done. }
  destruct (process_order_cases sys order_data kinds w) as [ls [[r' E]|(c & o & t & E)]];
    rewrite E in Hrun.
  - injection Hrun as _ <- <-. exists [], []. by rewrite !app_nil_r.
  - destruct (Hloop _ _ _ _ _ _ _ _ _ Hobs Hreg Hrun) as (rs & en & Hh & Ha & Hm).
    by exists rs, en.
Qed.

(** ** The further properties at concrete inputs *)

(** X1 on the order of the demonstration's builder. *)
Lemma build_order_checks_shop :
  exists order_data,
    build (apply_calls calls_ana new_builder) = Ok order_data /\
    dict_get order_data "order_id" = Some (PStr "ORD-001") /\
    dict_get order_data "customer" = Some ana /\
    dict_get order_data "total" = Some (PInt 150) /\
    check_order_id order_data = Ok true /\
    check_customer order_data = Ok true /\
    check_total order_data = Ok true.
Proof.
  eexists. split; [reflexivity|].
  exact (build_order_checks (apply_calls calls_ana new_builder) _ eq_refl).
Defined.

(** X2 on a builder that is given no total. *)
Lemma build_without_total_rejected_shop :
  exists order_data,
    build (apply_calls calls_no_total new_builder) = Ok order_data /\
    dict_get order_data "total" = Some (PFloat 0%float) /\
    exists ls,
      process_order shop order_data ["email"] w0 = (Ok tt, shop, prints ls w0).
Proof.
  eexists. split; [reflexivity|].
  exact (build_without_total_rejected calls_no_total _ shop ["email"] w0 eq_refl eq_refl).
Defined.

(** X3 on the same builder: two items, in call order. *)
Lemma build_items_in_call_order_shop :
  exists order_data,
    build (apply_calls calls_no_total new_builder) = Ok order_data /\
    dict_get order_data "items" =
      Some (PList [PDict [("name", PStr "Laptop"); ("price", PInt 899); ("quantity", PInt 1)];
                   PDict [("name", PStr "Funda"); ("price", PInt 20); ("quantity", PInt 2)]]).
Proof.
  eexists. split; [reflexivity|].
  exact (proj2 (build_items_in_call_order calls_no_total new_builder _) eq_refl).
Defined.

Lemma valid_order_pedro : valid_order order_pedro.
Proof. repeat split; reflexivity. Defined.

Lemma valid_order_ana : valid_order order_ana.
Proof. repeat split; reflexivity. Defined.

(** X4 on Pedro, who has an email and neither phone nor device. *)
Lemma primitive_sends_on_valid_order_shop :
  (exists r w',
      send EmailNotifier pedro id_pedro (PInt 10) w0 = (Ok (PDict r), w') /\
      dict_get r "to" = Some (PStr "pedro@email.com")) /\
  send SMSNotifier pedro id_pedro (PInt 10) w0 =
    (Raise (KeyError "phone"), entered SMSNotifier w0) /\
  send PushNotifier pedro id_pedro (PInt 10) w0 =
    (Raise (KeyError "device_id"), entered PushNotifier w0).
Proof.
  destruct (primitive_sends_on_valid_order order_pedro pedro id_pedro (PInt 10) w0
              valid_order_pedro eq_refl)
    as (fields & Hf & (email & r & w' & He & Hs & _ & Hto) & _ & Hsms & _ & Hpush).
  injection Hf as <-.
  split; [|split].
  - exists r, w'. split; [exact Hs|]. rewrite Hto. symmetry. exact He.
  - by apply Hsms.
  - by apply Hpush.
Defined.

(** X5 on a built customer with neither phone nor device: the SMS and the
    premium group are sent all the same. *)
Lemma built_order_dispatches_shop :
  exists order_data customer rs sys' w',
    build (apply_calls calls_luis new_builder) = Ok order_data /\
    dict_get order_data "customer" = Some customer /\
    process_order shop order_data ["sms"; "fax"; "premium"] w0 = (Ok tt, sys', w') /\
    get_notification_history sys' = (get_notification_history shop ++ rs)%list /\
    length rs = 2.
Proof.
  eexists.
  destruct (built_order_dispatches (apply_calls calls_luis new_builder) _ shop
              ["sms"; "fax"; "premium"] w0 eq_refl)
    as (customer & rs & sys' & w' & Hc & Hrun & Hh & Hrs).
  - repeat split; reflexivity.
  - intros k n Hin Hk.
    destruct Hin as [<-|[<-|[<-|[]]]]; vm_compute in Hk;
      [injection Hk as <-|discriminate|injection Hk as <-]; reflexivity.
  - exact audit_returns.
  - exists customer, rs, sys', w'.
    split; [reflexivity|]. split; [exact Hc|]. split; [exact Hrun|]. split; [exact Hh|].
    apply Forall2_length in Hrs. rewrite <- Hrs. vm_compute. reflexivity.
Defined.

(** X6 on a chain of another shape: the total is checked first. *)
Lemma validate_any_chain_shop :
  validate chain_total_first order_pedro w0 =
    (Ok true, prints [msg_total_valid; msg_order_id_valid] w0) /\
  validate chain_total_first order_no_id w0 =
    (Ok false, prints [msg_total_invalid] w0) /\
  validate chain_total_first [("order_id", PStr "ORD-009"); ("total", PNone)] w0 =
    (Raise (TypeError "'<=' not supported between instances of 'NoneType' and 'int'"), w0).
Proof.
  split; [|split].
  - apply (proj1 (validate_any_chain chain_total_first order_pedro w0)).
    repeat constructor.
  - apply (proj1 (proj2 (validate_any_chain chain_total_first order_no_id w0))
             [] CheckTotal [CheckOrderId]); [reflexivity|constructor|reflexivity].
  - rewrite <- (prints_nil w0) at 2.
    apply (proj2 (proj2 (validate_any_chain chain_total_first
                           [("order_id", PStr "ORD-009"); ("total", PNone)] w0))
             [] CheckTotal [CheckOrderId]); [reflexivity|constructor|reflexivity].
Defined.

(** X7 on an order whose total is zero. *)
Lemma invalid_order_not_dispatched_shop :
  (run shop order_free ["email"; "sms"]).1.2 = shop /\
  exists ls, (run shop order_free ["email"; "sms"]).2 = prints ls w0.
Proof.
  apply (invalid_order_not_dispatched shop order_free ["email"; "sms"] w0
           (run shop order_free ["email"; "sms"]).1.1).
  - intros (_ & _ & Ht). discriminate Ht.
  - vm_compute. reflexivity.
Defined.

(** X8: a retry with no attempt never calls the notifier that is down. *)
Lemma retry_without_attempts_shop :
  send (RetryDecorator down 0) ana id_ana (PInt 150) w0 =
    (Ok (PDict []), entered (RetryDecorator down 0) w0).
Proof. apply retry_without_attempts. lia. Defined.

Lemma flaky_returns :
  returns_at flaky ana id_ana (PInt 150) (ShopState 2 []) (ShopState 3 []).
Proof.
  intros [[out c s] tr] Hw. cbn in Hw. subst s. eexists _, _. split; reflexivity.
Defined.

Lemma flaky_raises_twice :
  raises_through flaky ana id_ana (PInt 150) (ShopState 0 [])
    [OtherError "ConnectionError" "sin conexion"; OtherError "ConnectionError" "sin conexion"]
    (ShopState 2 []).
Proof.
  eapply raises_through_cons; [apply flaky_raises; lia|].
  eapply raises_through_cons; [apply flaky_raises; lia|].
  apply raises_through_nil.
Defined.

(** X9 on the unreliable notifier with five attempts allowed. *)
Lemma retry_returns_after_failures_shop :
  exists wa r wb,
    ext (w_env wa) = ShopState 2 [] /\
    send flaky ana id_ana (PInt 150) wa = (Ok r, wb) /\
    send (RetryDecorator flaky 5) ana id_ana (PInt 150) w0 = (Ok r, wb).
Proof.
  apply (retry_returns_after_failures flaky 5 ana id_ana (PInt 150) (ShopState 0 []) _
           (ShopState 2 []) (ShopState 3 []) w0 flaky_raises_twice flaky_returns).
  - cbn. lia.
  - reflexivity.
Defined.

(** X10 on the unreliable notifier with two attempts allowed. *)
Lemma retry_exhausted_shop :
  exists w',
    send (RetryDecorator flaky 2) ana id_ana (PInt 150) w0 =
      (Raise (OtherError "ConnectionError" "sin conexion"), w') /\
    ext (w_env w') = ShopState 2 [].
Proof.
  apply (retry_exhausted flaky 2 ana id_ana (PInt 150) (ShopState 0 [])
           [OtherError "ConnectionError" "sin conexion"]
           (OtherError "ConnectionError" "sin conexion") (ShopState 2 []) w0
           flaky_raises_twice); reflexivity.
Defined.

(** X11 on the premium group. *)
Lemma builtin_send_frame_shop :
  ext (w_env (send premium ana id_ana (PInt 150) w0).2) = ext (w_env w0) /\
  (exists ls, stdout (w_env (send premium ana id_ana (PInt 150) w0).2) =
              (stdout (w_env w0) ++ ls)%list) /\
  clock (w_env w0) <= clock (w_env (send premium ana id_ana (PInt 150) w0).2).
Proof.
  apply (builtin_send_frame premium ana id_ana (PInt 150) w0
           (send premium ana id_ana (PInt 150) w0).1); [reflexivity|].
  vm_compute. reflexivity.
Defined.

(** X12 on the decorated email notifier and on the premium group. *)
Lemma result_type_of_notifier_shop :
  (exists d, (send email_enhanced ana id_ana (PInt 150) w0).1 = Ok (PDict d) /\
             dict_get d "type" = Some (PStr "email")) /\
  (exists d, (send premium ana id_ana (PInt 150) w0).1 = Ok (PDict d) /\
             dict_get d "type" = Some (PStr "composite")) /\
  get_notification_type premium = "composite_Premium".
Proof.
  split; [|split].
  - assert (Hs : exists r w', send email_enhanced ana id_ana (PInt 150) w0 = (Ok r, w')).
    { eexists _, _. vm_compute. reflexivity. }
    destruct Hs as (r & w' & Hs).
    destruct (proj1 (result_type_of_notifier email_enhanced ana id_ana (PInt 150) w0 r w' Hs)
                eq_refl) as (d & -> & Ht).
    exists d. split; [by rewrite Hs|exact Ht].
  - assert (Hs : exists r w', send premium ana id_ana (PInt 150) w0 = (Ok r, w')).
    { eexists _, _. vm_compute. reflexivity. }
    destruct Hs as (r & w' & Hs).
    destruct (proj2 (result_type_of_notifier premium ana id_ana (PInt 150) w0 r w' Hs)
                "Premium" [EmailNotifier; SMSNotifier; PushNotifier] eq_refl)
      as ((d & -> & Ht) & _).
    exists d. split; [by rewrite Hs|exact Ht].
  - reflexivity.
Defined.


(** X14 in the shop once the audit listener is detached. *)
Lemma only_attached_listeners_updated_shop :
  exists tr,
    trace (run shop_silent order_ana ["premium"; "email"]).2 = (trace w0 ++ tr)%list /\
    ~ In (obs_id audit) (updated_ids tr).
Proof.
  destruct (only_attached_listeners_updated shop_silent order_ana ["premium"; "email"] w0
              (run shop_silent order_ana ["premium"; "email"]).1.1
              (run shop_silent order_ana ["premium"; "email"]).1.2
              (run shop_silent order_ana ["premium"; "email"]).2)
    as (tr & Ht & _ & Hdet).
  { vm_compute. reflexivity. }
  exists tr. split; [exact Ht|].
  apply (Hdet audit shop); [reflexivity|].
  repeat constructor. by intros Hin%elem_of_nil.
Defined.

(** X15 in the shop: a fax notifier registered, and no fax requested. *)
Lemma register_notifier_frame_shop :
  get_notifier
    (factory (system_register "email" email_enhanced
                (system_register "email" EmailNotifier shop))) "email" =
    Ok email_enhanced /\
  get_notifier (factory (system_register "fax" down shop)) "email" = Ok EmailNotifier /\
  (process_order (system_register "fax" down shop) order_ana ["email"; "sms"] w0).1.1 =
    (run shop order_ana ["email"; "sms"]).1.1 /\
  (process_order (system_register "fax" down shop) order_ana ["email"; "sms"] w0).2 =
    (run shop order_ana ["email"; "sms"]).2.
Proof.
  split; [|split].
  - exact (proj1 (register_notifier_frame shop "email" email_enhanced) EmailNotifier).
  - rewrite (proj1 (proj2 (register_notifier_frame shop "fax" down)) "email") by done.
    reflexivity.
  - rewrite (proj2 (proj2 (register_notifier_frame shop "fax" down))
               order_ana ["email"; "sms"] w0).
    + unfold run. by destruct (process_order shop order_ana ["email"; "sms"] w0) as [[? ?] ?].
    + intros [H|[H|[]]]; discriminate H.
Defined.


(** X17 from the class as the program starts. *)
Lemma notification_config_singleton_shop :
  NotificationConfig (NotificationConfig config_class_initial).2 =
    NotificationConfig config_class_initial /\
  get_config (NotificationConfig config_class_initial).1
    (NotificationConfig
       (config_setattr (NotificationConfig config_class_initial).1 "max_retries" (PInt 5)
          (NotificationConfig config_class_initial).2)).2 =
    Ok [("max_retries", PInt 5); ("timeout", PInt 30);
        ("enable_logging", PBool true); ("batch_size", PInt 10)].
Proof.
  destruct (notification_config_singleton config_class_initial) as (_ & Hsame & _ & Hinit).
  split.
  - rewrite Hsame. by destruct (NotificationConfig config_class_initial).
  - by apply Hinit.
Defined.

(** X18 in the shop. *)
Lemma audit_log_mirrors_history_shop :
  exists rs entries,
    get_notification_history (run shop order_ana ["premium"; "fax"; "email"]).1.2 =
      (get_notification_history shop ++ rs)%list /\
    audit_log (ext (w_env (run shop order_ana ["premium"; "fax"; "email"]).2)) =
      (audit_log (ext (w_env w0)) ++ entries)%list /\
    map (type_and_recipient "notification_type" "recipient") entries =
    map (type_and_recipient "type" "to") rs.
Proof.
  apply (audit_log_mirrors_history shop order_ana ["premium"; "fax"; "email"] w0
           (run shop order_ana ["premium"; "fax"; "email"]).1.1).
  - reflexivity.
  - intros k n Hin Hk.
    destruct Hin as [<-|[<-|[<-|[]]]]; vm_compute in Hk;
      [injection Hk as <-|discriminate|injection Hk as <-]; reflexivity.
  - vm_compute. reflexivity.
Defined.

(** X19 on the email notifier under a retry and a logging decorator. *)
Lemma decorators_change_console_only_shop :
  (send email_enhanced ana id_ana (PInt 150) w0).1 =
    (send (RetryDecorator EmailNotifier 2) ana id_ana (PInt 150) w0).1 /\
  get_notification_type email_enhanced = "email".
Proof.
  destruct (decorators_change_console_only (RetryDecorator EmailNotifier 2)
              ana id_ana (PInt 150) w0 eq_refl) as (_ & Hlog & _ & _ & Hty & _).
  split; [exact Hlog|exact Hty].
Defined.

End ShopRuns.
